(** * censored_demand: the prediction pipeline of [predict.py]

    A shallow embedding of [split_days_by_stockout],
    [create_models_by_known_periods], [predict_stockout_day_demand] and
    [predict_stockout_daily_demand], together with the few numpy
    operations they are written with.

    Numbers: sales and unsold units are product counts, and the main
    embedding takes them as integers, [Z].  It is the code's arithmetic
    on arrays of integer values whose sums stay exactly representable
    (below 2^53 in absolute value: float64 and int64 then add without
    rounding or wrap-around); this is what the simulator of the
    repository produces.  On arrays of fractional float64 values numpy
    rounds, and [np.sum] and [np.cumsum] round differently: module
    [f64] embeds the day predictor on such records, with numpy's order
    of additions.

    A one-dimensional array is a list; a two-dimensional array keeps
    its rows and, separately, its number of columns (numpy keeps
    [shape[1]] also when the array has no row).  Python exceptions are an
    error monad.  The numerical fit of statsmodels is a parameter of the
    development; the error of [sm.OLS] on zero observations is
    modelled. *)

From Stdlib Require Import ZArith Lia Floats.
From stdpp Require Import base list sorting gmap.

(** ** Exceptions *)

Inductive exn : Type :=
| IndexError
| KeyError (key : nat)
| ValueError.

Inductive res (A : Type) : Type :=
| Ok (a : A)
| Raise (e : exn).
Arguments Ok {A} a.
Arguments Raise {A} e.

#[global] Instance res_ret : MRet res := fun A a => Ok a.
#[global] Instance res_bind : MBind res := fun A B f m =>
  match m with
  | Ok a => f a
  | Raise e => Raise e
  end.

(** ** The numpy operations used by the source *)

Record array2d : Type := Array2d {
  data : list (list Z);   (* the rows, in order *)
  shape1 : nat            (* [shape[1]], the number of periods *)
}.

Definition shape0 (a : array2d) : nat := length (data a).

(** Every row has [shape1] entries. *)
Definition rectangular (a : array2d) : Prop :=
  Forall (fun row => length row = shape1 a) (data a).

Module np.

(** [np.sum] of a one-dimensional array of integer values (exact as
    long as the sums stay below 2^53 in absolute value; for fractional
    float64 values see [f64.sum]). *)
Definition sum (l : list Z) : Z := foldr Z.add 0%Z l.

(** [np.sum(a, axis=1)]: one sum per row. *)
Definition sum_axis1 (rows : list (list Z)) : list Z := map sum rows.

Fixpoint cumsum_from (acc : Z) (l : list Z) : list Z :=
  match l with
  | [] => []
  | x :: l' => (acc + x)%Z :: cumsum_from (acc + x)%Z l'
  end.

(** [np.cumsum]: the running sums, left to right (of integer values;
    for fractional float64 values see [f64.cumsum]). *)
Definition cumsum (l : list Z) : list Z := cumsum_from 0%Z l.

(** The elementwise comparison [a < v] of an array with a scalar. *)
Definition less (l : list Z) (v : Z) : list bool :=
  map (fun c => bool_decide (c < v)%Z) l.

(** [a > 0] and [a == 0]. *)
Definition greater0 (l : list Z) : list bool :=
  map (fun u => bool_decide (0 < u)%Z) l.
Definition equal0 (l : list Z) : list bool :=
  map (fun u => bool_decide (u = 0%Z)) l.

(** [np.where(cond, xs, y)] with a scalar [y]. *)
Definition where_ (cond : list bool) (xs : list Z) (y : Z) : list Z :=
  zip_with (fun (c : bool) x => if c then x else y) cond xs.

(** [np.count_nonzero]. *)
Definition count_nonzero (l : list Z) : nat :=
  length (filter (fun x => x <> 0%Z) l).

(** The rows kept by a boolean mask of the same length. *)
Fixpoint compress {A : Type} (mask : list bool) (xs : list A) : list A :=
  match mask, xs with
  | b :: mask', x :: xs' =>
      if b then x :: compress mask' xs' else compress mask' xs'
  | _, _ => []
  end.

(** [a[mask]] for a two-dimensional [a] and a one-dimensional boolean
    [mask]: numpy turns the mask into the indices of its true entries
    and raises IndexError ("boolean index did not match indexed array
    along axis 0") when the lengths differ; it makes this check only
    for a mask of positive length, so that a mask without entries
    selects no row of any array. *)
Definition getitem_mask (a : array2d) (mask : list bool) : res array2d :=
  if decide (length mask = shape0 a \/ mask = [])
  then Ok (Array2d (compress mask (data a)) (shape1 a))
  else Raise IndexError.

(** [np.apply_along_axis(func1d, 1, arr)]: numpy takes the first row
    apart ("invoke the function on the first item") and raises
    ValueError ("Cannot apply_along_axis when any iteration dimensions
    are 0") when there is none; it then loops over the remaining rows
    and stores each result at the row's own position. *)
Definition apply_along_axis1 {B : Type}
    (func1d : list Z -> res B) (arr : array2d) : res (list B) :=
  match data arr with
  | [] => Raise ValueError
  | row0 :: rest =>
      r0 ← func1d row0;
      rs ← mapM func1d rest;
      mret (r0 :: rs)
  end.

End np.

(** ** [split_days_by_stockout] *)

Definition split_days_by_stockout
    (period_sales_daily : array2d) (unsold_daily : list Z)
  : res (array2d * array2d) :=
  complete_days ← np.getitem_mask period_sales_daily (np.greater0 unsold_daily);
  stockout_days ← np.getitem_mask period_sales_daily (np.equal0 unsold_daily);
  mret (complete_days, stockout_days).

(** ** The regression primitive

    statsmodels is outside the repository: the development is
    parametric in the type of fitted results, in the numerical fit and
    in [result.predict(x)].  [OLS_fit endog exog] is the least-squares
    fit of [endog] on the design matrix [exog], given by its rows (one
    row per observation, one entry per regressor); the fit has an
    intercept only if the design has a constant column, which the caller
    must add. *)

Class Regression : Type := {
  Model : Type;
  Pred : Type;
  OLS_fit : list Z -> list (list Z) -> Model;
  predict : Model -> Z -> Pred
}.

Module sm.

(** [sm.OLS(endog, exog).fit()] for a one-dimensional [exog], as the
    source calls it: statsmodels reads the vector as a design of one
    column, and its constructor raises ValueError ("zero-size array to
    reduction operation maximum which has no identity") when there is
    no observation. *)
Definition OLS `{Regression} (endog exog : list Z) : res Model :=
  match exog with
  | [] => Raise ValueError
  | _ => Ok (OLS_fit endog (map (fun x => [x]) exog))
  end.

End sm.

(** An exact instance, used to run the pipeline on concrete data: for a
    design of one column the least-squares slope through the origin is
    [sum (x*y) / sum (x*x)], kept as a fraction. *)
Definition dot (xs ys : list Z) : Z := np.sum (zip_with Z.mul xs ys).

Definition exact_ols : Regression := {|
  Model := Z * Z;
  Pred := Z * Z;
  OLS_fit := fun Y D =>
    let X := map (fun row => hd 0%Z row) D in (dot X Y, dot X X);
  predict := fun m x => ((m.1 * x)%Z, m.2)
|}.

(** What [predict_stockout_day_demand] returns: [np.NaN] or the
    prediction of a model. *)
Inductive estimate `{Regression} : Type :=
| NaN
| Predicted (p : Pred).

Section pipeline.
Context `{Regression}.

(** ** [create_models_by_known_periods]

    The dictionary is built by the loop over [range(1, num_periods)];
    [complete_days[:, 0:period]] keeps the first [period] entries of
    every row.  An exception of [sm.OLS] ends the loop and the call. *)
Definition create_models_by_known_periods (complete_days : array2d)
  : res (gmap nat Model) :=
  let num_periods := shape1 complete_days in
  foldl (fun state period =>
           period_models ← state;
           let known_periods := map (take period) (data complete_days) in
           let X := np.sum_axis1 known_periods in
           let Y := np.sum_axis1 (data complete_days) in
           result ← sm.OLS Y X;
           mret (<[period := result]> period_models))
        (mret ∅) (seq 1 (num_periods - 1)).

(** The model the loop stores for one value of [period] when the fit
    returns. *)
Definition fit_period (complete_days : array2d) (period : nat) : Model :=
  OLS_fit (np.sum_axis1 (data complete_days))
          (map (fun x => [x])
               (np.sum_axis1 (map (take period) (data complete_days)))).

(** One round of the loop of [create_models_by_known_periods]. *)
Definition training_step (complete_days : array2d)
    (state : res (gmap nat Model)) (period : nat) : res (gmap nat Model) :=
  period_models ← state;
  let known_periods := map (take period) (data complete_days) in
  let X := np.sum_axis1 known_periods in
  let Y := np.sum_axis1 (data complete_days) in
  result ← sm.OLS Y X;
  mret (<[period := result]> period_models).

(** The dictionary of a call in which every fit returns. *)
Definition trained_table (complete_days : array2d) : gmap nat Model :=
  foldl (fun m p => <[p := fit_period complete_days p]> m)
        ∅ (seq 1 (shape1 complete_days - 1)).

(** ** [predict_stockout_day_demand]

    On a record of integer counts; [f64.predict_stockout_day_demand] is
    the same function on a record of float64 values. *)

Definition predict_stockout_day_demand
    (stockout_period_sales : list Z) (period_models : gmap nat Model)
  : res estimate :=
  let days_sum := np.sum stockout_period_sales in
  let cumsum_periods := np.cumsum stockout_period_sales in
  let known_periods :=
    np.where_ (np.less cumsum_periods days_sum) stockout_period_sales 0%Z in
  let num_known_periods := np.count_nonzero known_periods in
  let known_demand := np.sum (take num_known_periods stockout_period_sales) in
  if decide (0 < num_known_periods) then
    match period_models !! num_known_periods with
    | Some model => Ok (Predicted (predict model known_demand))
    | None => Raise (KeyError num_known_periods)
    end
  else Ok NaN.

(** ** [predict_stockout_daily_demand] *)

Definition predict_stockout_daily_demand
    (stockout_days : array2d) (period_models : gmap nat Model)
  : res (list estimate) :=
  np.apply_along_axis1
    (fun row => predict_stockout_day_demand row period_models)
    stockout_days.

End pipeline.

(** The local variables of [predict_stockout_day_demand], as functions
    of the day's record. *)
Definition known_periods (stockout_period_sales : list Z) : list Z :=
  let days_sum := np.sum stockout_period_sales in
  let cumsum_periods := np.cumsum stockout_period_sales in
  np.where_ (np.less cumsum_periods days_sum) stockout_period_sales 0%Z.

Definition num_known_periods (stockout_period_sales : list Z) : nat :=
  np.count_nonzero (known_periods stockout_period_sales).

Definition known_demand (stockout_period_sales : list Z) : Z :=
  np.sum (take (num_known_periods stockout_period_sales)
               stockout_period_sales).

(** ** The specification's reading of "known periods" *)

(** The number of periods whose running sum is strictly below the day's
    total, whatever their own sales: the count the specification and
    the docstring of [predict_stockout_day_demand] describe. *)
Definition num_below_total (sales : list Z) : nat :=
  length (filter (fun c => (c < np.sum sales)%Z) (np.cumsum sales)).

(** ** Vocabulary of the statements about the partition *)

(** An inventory-remaining value that passes neither test of
    [split_days_by_stockout]. *)
Definition passes_neither (v : Z) : Prop := ~ (0 < v)%Z /\ v <> 0%Z.

#[global] Instance passes_neither_dec v : Decision (passes_neither v).
Proof. unfold passes_neither. apply _. Defined.

(** The day indices at which a mask holds, in increasing order. *)
Fixpoint days_from (i : nat) (mask : list bool) : list nat :=
  match mask with
  | [] => []
  | b :: mask' => if b then i :: days_from (S i) mask' else days_from (S i) mask'
  end.

Definition days_where (mask : list bool) : list nat := days_from 0 mask.

(** [interleave l r m]: [m] is [l] and [r] shuffled together, every
    element of [m] coming from exactly one of them and both keeping
    their order. *)
Inductive interleave {A : Type} : list A -> list A -> list A -> Prop :=
| interleave_nil : interleave [] [] []
| interleave_left x l r m :
    interleave l r m -> interleave (x :: l) r (x :: m)
| interleave_right x l r m :
    interleave l r m -> interleave l (x :: r) (x :: m).

(** The periods below the day's total, split by their own sales. *)
Definition positive_below_total (sales : list Z) : nat :=
  length (filter (fun p : Z * Z => (p.1 < np.sum sales)%Z /\ (0 < p.2)%Z)
                 (zip (np.cumsum sales) sales)).

Definition zero_below_total (sales : list Z) : nat :=
  length (filter (fun p : Z * Z => (p.1 < np.sum sales)%Z /\ p.2 = 0%Z)
                 (zip (np.cumsum sales) sales)).

(** ** [generate_daily_period_sales] of [simulate.py]

    The function first draws [daily_period_demand] (Poisson counts, one
    row per day) and [daily_production] (rounded normal draws, one value
    per day) with the same [days]; what it computes from the two draws
    uses no randomness and is modelled here with the draws as arguments.
    The operations on two-dimensional arrays are elementwise. *)

Module np2.

(** [np.cumsum(a, axis=1)]. *)
Definition cumsum_axis1 (rows : list (list Z)) : list (list Z) :=
  map np.cumsum rows.

(** [col[:, np.newaxis] - a]: the value of a day minus each entry of
    its row. *)
Definition column_minus (col : list Z) (rows : list (list Z))
  : list (list Z) :=
  zip_with (fun p row => map (fun c => (p - c)%Z) row) col rows.

(** [a < 0]. *)
Definition less0 (rows : list (list Z)) : list (list bool) :=
  map (map (fun v => bool_decide (v < 0)%Z)) rows.

(** [np.where(cond, y, xs)] with a scalar [y]. *)
Definition where_scalar_array (cond : list (list bool)) (y : Z)
    (xs : list (list Z)) : list (list Z) :=
  zip_with (zip_with (fun (c : bool) x => if c then y else x)) cond xs.

(** [np.where(cond, xs, y)] with a scalar [y]. *)
Definition where_array_scalar (cond : list (list bool))
    (xs : list (list Z)) (y : Z) : list (list Z) :=
  zip_with (zip_with (fun (c : bool) x => if c then x else y)) cond xs.

(** [a + b] on arrays of one shape. *)
Definition add (xs ys : list (list Z)) : list (list Z) :=
  zip_with (zip_with Z.add) xs ys.

(** [u - v] on one-dimensional arrays. *)
Definition subtract (u v : list Z) : list Z := zip_with Z.sub u v.

End np2.

Definition generate_daily_period_sales
    (daily_period_demand : array2d) (daily_production : list Z)
  : array2d * list Z :=
  let cumulative_period_demand :=
    np2.cumsum_axis1 (data daily_period_demand) in
  let remaining_by_period :=
    np2.column_minus daily_production cumulative_period_demand in
  let completed_period_sales :=
    np2.where_scalar_array (np2.less0 remaining_by_period) 0%Z
                           (data daily_period_demand) in
  let incompleted_sales :=
    np2.where_array_scalar (np2.less0 remaining_by_period)
      (np2.add (data daily_period_demand) remaining_by_period) 0%Z in
  let partial_period_sales :=
    np2.where_scalar_array (np2.less0 incompleted_sales) 0%Z
                           incompleted_sales in
  let total_period_sales :=
    np2.add completed_period_sales partial_period_sales in
  let total_daily_sales := np.sum_axis1 total_period_sales in
  let unsold_daily := np2.subtract daily_production total_daily_sales in
  (Array2d total_period_sales (shape1 daily_period_demand), unsold_daily).

(** What one day sells, period by period: [acc] is the demand of the
    day's earlier periods, [p] the day's production. *)
Definition period_sale (p acc d : Z) : Z :=
  if bool_decide (p - (acc + d) < 0)%Z
  then (if bool_decide (d + (p - (acc + d)) < 0)%Z then 0
        else d + (p - (acc + d)))%Z
  else d.

Fixpoint sales_from (p acc : Z) (demand : list Z) : list Z :=
  match demand with
  | [] => []
  | d :: demand' => period_sale p acc d :: sales_from p (acc + d)%Z demand'
  end.

Definition day_sales (p : Z) (demand : list Z) : list Z :=
  sales_from p 0%Z demand.

(** ** Vocabulary of the statements about the trainer and the domain *)


(** A record of integer counts whose absolute values add up to less
    than 2^53: every sum the code takes over a part of such a record is
    an integer below 2^53 in absolute value, which float64 and int64
    hold exactly, so that the sums on [Z] are the sums of the code. *)
Definition exact_counts (sales : list Z) : Prop :=
  (np.sum (map Z.abs sales) < 2 ^ 53)%Z.

(** ** [predict_stockout_day_demand] on float64 records

    The same function on a record of float64 values, with the additions
    in numpy's order. *)

Module f64.

(** [res += a[i]] for every entry, in order. *)
Definition add_seq (res : float) (a : list float) : float :=
  fold_left PrimFloat.add a res.

(** [r[j] += a[i + j]] for the eight accumulators. *)
Definition add_lanes (r block : list float) : list float :=
  zip_with PrimFloat.add r block.

Fixpoint unrolled (blocks : nat) (r a : list float)
  : list float * list float :=
  match blocks with
  | 0 => (r, a)
  | S blocks' => unrolled blocks' (add_lanes r (take 8 a)) (drop 8 a)
  end.

Definition sum8 (r : list float) : float :=
  match r with
  | [r0; r1; r2; r3; r4; r5; r6; r7] =>
      ((r0 + r1) + (r2 + r3)) + ((r4 + r5) + (r6 + r7))
  | _ => 0
  end%float.

(** numpy's pairwise summation of a float64 array: fewer than 8 entries
    are added in order; up to 128 entries are added in eight
    accumulators, which are then added in pairs, followed by the entries
    left over; a longer array is cut in two at a multiple of 8 near its
    middle.  [fuel] bounds the depth of the cuts. *)
Fixpoint pairwise_sum (fuel : nat) (a : list float) : float :=
  let n := length a in
  if n <? 8 then add_seq 0%float a
  else if n <=? 128 then
    let '(r, rest) := unrolled (n / 8 - 1) (take 8 a) (drop 8 a) in
    add_seq (sum8 r) rest
  else
    match fuel with
    | 0 => 0%float
    | S fuel' =>
        let n2 := n / 2 - (n / 2) mod 8 in
        (pairwise_sum fuel' (take n2 a) + pairwise_sum fuel' (drop n2 a))%float
    end.

(** [np.sum] of a one-dimensional float64 array: the reduction starts
    from 0 and adds the pairwise sum of the entries. *)
Definition sum (a : list float) : float :=
  (0 + pairwise_sum (length a) a)%float.

Fixpoint cumsum_from (acc : float) (a : list float) : list float :=
  match a with
  | [] => []
  | x :: a' => (acc + x)%float :: cumsum_from (acc + x)%float a'
  end.

(** [np.cumsum]: the first entry, then one addition per entry, in
    order. *)
Definition cumsum (a : list float) : list float :=
  match a with
  | [] => []
  | x :: a' => x :: cumsum_from x a'
  end.

(** [a < v]. *)
Definition less (a : list float) (v : float) : list bool :=
  map (fun c => PrimFloat.ltb c v) a.

(** [np.where(cond, xs, 0)]. *)
Definition where_ (cond : list bool) (xs : list float) (y : float)
  : list float :=
  zip_with (fun (c : bool) x => if c then x else y) cond xs.

(** [np.count_nonzero]: the entries that are not equal to 0. *)
Definition count_nonzero (a : list float) : nat :=
  length (filter (fun x => PrimFloat.eqb x 0%float = false) a).

Definition num_known_periods (stockout_period_sales : list float) : nat :=
  let days_sum := sum stockout_period_sales in
  let cumsum_periods := cumsum stockout_period_sales in
  let known_periods :=
    where_ (less cumsum_periods days_sum) stockout_period_sales 0%float in
  count_nonzero known_periods.

Section day.
Context `{Regression} (predict64 : Model -> float -> Pred).

Definition predict_stockout_day_demand
    (stockout_period_sales : list float) (period_models : gmap nat Model)
  : res estimate :=
  let days_sum := sum stockout_period_sales in
  let cumsum_periods := cumsum stockout_period_sales in
  let known_periods :=
    where_ (less cumsum_periods days_sum) stockout_period_sales 0%float in
  let num_known_periods := count_nonzero known_periods in
  let known_demand := sum (take num_known_periods stockout_period_sales) in
  if decide (0 < num_known_periods) then
    match period_models !! num_known_periods with
    | Some model => Ok (Predicted (predict64 model known_demand))
    | None => Raise (KeyError num_known_periods)
    end
  else Ok NaN.

End day.

(** The float64 nearest to 0.1. *)
Definition tenth : float := 0x1.999999999999ap-4%float.

End f64.

(** * Examples *)

Example split_example :
  split_days_by_stockout
    (Array2d [[1; 2]; [3; 4]; [5; 6]]%Z 2) [4; 0; 1]%Z
  = Ok (Array2d [[1; 2]; [5; 6]]%Z 2, Array2d [[3; 4]]%Z 2).
Proof. reflexivity. Qed.

(** The example of the docstring. *)
Example docstring_example :
  num_known_periods [23; 45; 23; 2; 0; 0; 0]%Z = 3.
Proof. reflexivity. Qed.

Example end_to_end :
  let complete := Array2d (replicate 5 [5; 5; 5; 5]%Z) 4 in
  (period_models ← @create_models_by_known_periods exact_ols complete;
   predict_stockout_day_demand [5; 5; 0; 0]%Z period_models)
  = Ok (@Predicted exact_ols (2500, 125)%Z).
Proof. vm_compute. reflexivity. Qed.

(** On integer values the float64 sums are the sums on [Z]: the
    docstring's record and the record [0, 5, 3] have the same number of
    known periods in both embeddings. *)
Example integer_records_agree :
  f64.num_known_periods [23; 45; 23; 2; 0; 0; 0]%float
  = num_known_periods [23; 45; 23; 2; 0; 0; 0]%Z
  /\ f64.num_known_periods [0; 5; 3]%float = num_known_periods [0; 5; 3]%Z
  /\ f64.sum [23; 45; 23; 2; 0; 0; 0]%float = 93%float.
Proof. repeat split; vm_compute; reflexivity. Qed.

(** Seven entries of 0.1 have six known periods; followed by three
    zeros, which [np.sum] adds in another order, they have seven. *)
Example trailing_zeros_on_fractional_record :
  f64.num_known_periods (replicate 7 f64.tenth) = 6
  /\ f64.num_known_periods (replicate 7 f64.tenth ++ replicate 3 0%float) = 7
  /\ f64.sum (replicate 7 f64.tenth ++ replicate 3 0%float)
     = 0x1.6666666666667p-1%float
  /\ last (f64.cumsum (replicate 7 f64.tenth ++ replicate 3 0%float))
     = Some 0x1.6666666666666p-1%float.
Proof. repeat split; vm_compute; reflexivity. Qed.

(** The two sums of numpy on ten entries of 0.1: [np.sum] gives 1, the
    last entry of [np.cumsum] is the float64 just below 1. *)
Example sums_of_ten_tenths :
  f64.sum (replicate 10 f64.tenth) = 1%float
  /\ last (f64.cumsum (replicate 10 f64.tenth))
     = Some 0x1.fffffffffffffp-1%float.
Proof. split; vm_compute; reflexivity. Qed.

(** * The day partitioner *)

Section partition_facts.
Context {A : Type}.
Implicit Types (xs : list A) (mask : list bool).

Lemma elem_of_days_from i off mask :
  i ∈ days_from off mask <-> exists j, i = off + j /\ mask !! j = Some true.
Proof.
  revert off. induction mask as [|b mask IH]; intros off; simpl.
  - split; [by intros ?%elem_of_nil | by intros (j & _ & ?)].
  - assert (i ∈ days_from (S off) mask <->
            exists j, i = off + S j /\ mask !! j = Some true) as IH'.
    { rewrite IH. split; intros (j & -> & ?); exists j; split; auto; lia. }
    destruct b.
    + rewrite elem_of_cons, IH'. split.
      * intros [-> | (j & -> & ?)]; [exists 0 | exists (S j)]; split; auto; lia.
      * intros ([|j] & -> & Hj); [left; lia | right; eauto].
    + rewrite IH'. split.
      * intros (j & -> & ?). exists (S j); auto.
      * intros ([|j] & -> & Hj); [done | eauto].
Qed.

Lemma elem_of_days_where i mask :
  i ∈ days_where mask <-> mask !! i = Some true.
Proof.
  unfold days_where. rewrite elem_of_days_from. split.
  - by intros (j & -> & ?).
  - intros ?. by exists i.
Qed.

Lemma days_from_sorted off mask : StronglySorted lt (days_from off mask).
Proof.
  revert off. induction mask as [|b mask IH]; intros off; simpl.
  - constructor.
  - destruct b; [|done]. constructor; [done|].
    apply Forall_forall. intros i (j & -> & _)%elem_of_days_from. lia.
Qed.

(** Row [k] of [a[mask]] is the row of the [k]-th day at which the mask
    holds. *)
Lemma compress_days_from off mask xs :
  length mask <= length xs ->
  Forall2 (fun x i => exists j, i = off + j /\ xs !! j = Some x
                               /\ mask !! j = Some true)
          (np.compress mask xs) (days_from off mask).
Proof.
  revert off xs. induction mask as [|b mask IH]; intros off [|x xs] Hlen;
    simpl in *; try constructor; try lia.
  assert (Forall2 (fun x0 i => exists j, i = off + j /\ (x :: xs) !! j = Some x0
                                 /\ (b :: mask) !! j = Some true)
            (np.compress mask xs) (days_from (S off) mask)) as Htail.
  { eapply Forall2_impl; [apply (IH (S off) xs); lia|].
    intros y i (j & -> & ? & ?). exists (S j). split; [lia | done]. }
  destruct b; [|done]. constructor; [|done].
  exists 0. split; [lia | done].
Qed.

Lemma compress_interleave (m1 m2 : list bool) xs :
  length m1 = length xs -> length m2 = length xs ->
  Forall2 (fun b1 b2 => xorb b1 b2 = true) m1 m2 ->
  interleave (np.compress m1 xs) (np.compress m2 xs) xs.
Proof.
  intros H1 H2 Hx. revert xs H1 H2.
  induction Hx as [|b1 b2 m1 m2 Hb _ IH]; intros [|x xs] ? ?;
    simplify_eq/=; try constructor.
  destruct b1, b2; try done; constructor; by apply IH.
Qed.

Lemma interleave_length (l r m : list A) :
  interleave l r m -> length l + length r = length m.
Proof. induction 1; simpl; lia. Qed.

Lemma interleave_Permutation (l r m : list A) :
  interleave l r m -> l ++ r ≡ₚ m.
Proof.
  induction 1 as [|x l r m _ IH|x l r m _ IH]; simpl.
  - done.
  - by rewrite IH.
  - by rewrite <- Permutation_middle, IH.
Qed.
End partition_facts.

Lemma greater0_length u : length (np.greater0 u) = length u.
Proof. apply length_map. Qed.

Lemma equal0_length u : length (np.equal0 u) = length u.
Proof. apply length_map. Qed.

Lemma greater0_lookup u i :
  np.greater0 u !! i = Some true <-> exists v, u !! i = Some v /\ (0 < v)%Z.
Proof.
  unfold np.greater0. rewrite list_lookup_fmap. destruct (u !! i) as [v|]; simpl.
  - split.
    + intros [= Hb%bool_decide_eq_true]. eauto.
    + intros (? & [= <-] & ?). f_equal. by apply bool_decide_eq_true.
  - split; [done | by intros (? & ? & _)].
Qed.

Lemma equal0_lookup u i :
  np.equal0 u !! i = Some true <-> u !! i = Some 0%Z.
Proof.
  unfold np.equal0. rewrite list_lookup_fmap. destruct (u !! i) as [v|]; simpl.
  - split.
    + intros [= Hb%bool_decide_eq_true]. by subst.
    + intros [= ->]. done.
  - done.
Qed.

Lemma getitem_mask_map (f : Z -> bool) a u :
  np.getitem_mask a (map f u)
  = if decide (length u = shape0 a \/ u = [])
    then Ok (Array2d (np.compress (map f u) (data a)) (shape1 a))
    else Raise IndexError.
Proof.
  unfold np.getitem_mask. rewrite length_map.
  destruct (decide (length u = shape0 a \/ u = [])) as [Hok|Hbad].
  - rewrite decide_True; [done|].
    destruct Hok as [?| ->]; [by left | by right].
  - rewrite decide_False; [done|].
    intros [?|Hnil]; apply Hbad; [by left | right].
    by destruct u.
Qed.

(** What [split_days_by_stockout] returns, in one equation. *)
Lemma split_days_by_stockout_eq a u :
  split_days_by_stockout a u =
  if decide (length u = shape0 a \/ u = [])
  then Ok (Array2d (np.compress (np.greater0 u) (data a)) (shape1 a),
           Array2d (np.compress (np.equal0 u) (data a)) (shape1 a))
  else Raise IndexError.
Proof.
  unfold split_days_by_stockout, np.greater0, np.equal0.
  rewrite !getitem_mask_map.
  by destruct (decide (length u = shape0 a \/ u = [])).
Qed.

Lemma split_days_by_stockout_aligned a u :
  length u = shape0 a ->
  split_days_by_stockout a u
  = Ok (Array2d (np.compress (np.greater0 u) (data a)) (shape1 a),
        Array2d (np.compress (np.equal0 u) (data a)) (shape1 a)).
Proof.
  intros Hlen. rewrite split_days_by_stockout_eq.
  rewrite decide_True; [done | by left].
Qed.

Lemma split_days_by_stockout_Ok a u c s :
  split_days_by_stockout a u = Ok (c, s) ->
  c = Array2d (np.compress (np.greater0 u) (data a)) (shape1 a)
  /\ s = Array2d (np.compress (np.equal0 u) (data a)) (shape1 a)
  /\ length u <= shape0 a.
Proof.
  rewrite split_days_by_stockout_eq. case_decide as Hok; [|done].
  intros [= <- <-]. split; [done|]. split; [done|].
  destruct Hok as [->| ->]; simpl; lia.
Qed.

(** Each day goes to [complete_days], to [stockout_days], or, when its
    value passes neither test, to none of them. *)
Lemma split_count (u : list Z) (xs : list (list Z)) :
  length u = length xs ->
  length (np.compress (np.greater0 u) xs)
  + length (np.compress (np.equal0 u) xs)
  + length (filter passes_neither u) = length xs.
Proof.
  revert xs. induction u as [|v u IH]; intros [|x xs] Hlen; simplify_eq/=.
  - done.
  - specialize (IH xs Hlen). rewrite filter_cons.
    unfold passes_neither at 1.
    repeat case_bool_decide; repeat case_decide; simpl; lia.
Qed.

Lemma masks_exclusive (u : list Z) :
  Forall (fun v => (0 <= v)%Z) u ->
  Forall2 (fun b1 b2 => xorb b1 b2 = true) (np.greater0 u) (np.equal0 u).
Proof.
  induction 1 as [|v u Hv _ IH]; simpl; constructor; [|done].
  repeat case_bool_decide; simpl; try done; lia.
Qed.

(** C4, as the code has it: [split_days_by_stockout] looks at no value
    before indexing.  Whenever [unsold_daily] has one entry per day it
    returns both groups, also when some value passes neither test; the
    days of such values are in neither group, so that the two groups and
    those days together count the input days.  The only rejection is
    numpy's IndexError for a non-empty [unsold_daily] of the wrong
    length; an empty [unsold_daily] gives two groups without rows. *)
Theorem split_accepts_any_values (a : array2d) (u : list Z) :
  (length u = shape0 a ->
   exists c s, split_days_by_stockout a u = Ok (c, s)
     /\ shape0 c + shape0 s + length (filter passes_neither u) = shape0 a)
  /\ (length u <> shape0 a -> u <> [] ->
      split_days_by_stockout a u = Raise IndexError)
  /\ (u = [] ->
      split_days_by_stockout a u
      = Ok (Array2d [] (shape1 a), Array2d [] (shape1 a))).
Proof.
  split; [|split].
  - intros Hlen. rewrite split_days_by_stockout_aligned by done.
    eexists _, _. split; [reflexivity|].
    unfold shape0; simpl. by apply split_count.
  - intros Hlen Hne. rewrite split_days_by_stockout_eq.
    rewrite decide_False; [done|]. by intros [?|?].
  - intros ->. rewrite split_days_by_stockout_eq.
    rewrite decide_True by (by right). done.
Qed.

Lemma split_accepts_any_values_witness :
  exists c s,
    split_days_by_stockout (Array2d [[1; 2]; [3; 4]]%Z 2) [5; -1]%Z = Ok (c, s)
    /\ shape0 c + shape0 s + length (filter passes_neither [5; -1]%Z) = 2.
Proof.
  apply (proj1 (split_accepts_any_values
                  (Array2d [[1; 2]; [3; 4]]%Z 2) [5; -1]%Z)).
  reflexivity.
Defined.

(** C4 as stated fails: a day with -1 unsold units is not rejected, the
    call returns and the day is in neither group. *)
Lemma split_negative_not_rejected :
  passes_neither (-1)
  /\ split_days_by_stockout (Array2d [[1; 2]; [3; 4]]%Z 2) [5; -1]%Z
     = Ok (Array2d [[1; 2]]%Z 2, Array2d [] 2)
  /\ ~ (forall a u, length u = shape0 a -> Exists passes_neither u ->
          exists e, split_days_by_stockout a u = Raise e).
Proof.
  split; [|split].
  - unfold passes_neither. lia.
  - reflexivity.
  - intros Hclaim.
    destruct (Hclaim (Array2d [[1; 2]; [3; 4]]%Z 2) [5; -1]%Z) as [e He].
    + reflexivity.
    + apply Exists_cons_tl, Exists_cons_hd. unfold passes_neither. lia.
    + discriminate He.
Qed.

(** C5, amended: when [unsold_daily] has one entry per day and no entry
    is negative, the call returns two groups whose sizes add up to the
    number of days; the input rows are the two groups shuffled together,
    each row coming from exactly one group and each group in its
    original order; and every day index is selected by exactly one of
    the two masks. *)
Theorem split_partition (a : array2d) (u : list Z) :
  Forall (fun v => (0 <= v)%Z) u ->
  length u = shape0 a ->
  exists c s,
    split_days_by_stockout a u = Ok (c, s)
    /\ shape0 c + shape0 s = shape0 a
    /\ interleave (data c) (data s) (data a)
    /\ data c ++ data s ≡ₚ data a
    /\ forall i, i < shape0 a ->
         ((i ∈ days_where (np.greater0 u)) /\ (i ∉ days_where (np.equal0 u)))
         \/ ((i ∉ days_where (np.greater0 u)) /\ (i ∈ days_where (np.equal0 u))).
Proof.
  intros Hpos Hlen. rewrite split_days_by_stockout_aligned by done.
  eexists _, _. split; [reflexivity|]. simpl.
  assert (interleave (np.compress (np.greater0 u) (data a))
                     (np.compress (np.equal0 u) (data a)) (data a)) as Hint.
  { apply compress_interleave;
      [by rewrite greater0_length | by rewrite equal0_length
      | by apply masks_exclusive]. }
  split; [|split; [done|split]].
  - unfold shape0; simpl. by apply interleave_length.
  - by apply interleave_Permutation.
  - intros i Hi. rewrite !elem_of_days_where, greater0_lookup, equal0_lookup.
    unfold shape0 in *. rewrite <- Hlen in Hi.
    destruct (lookup_lt_is_Some_2 u i Hi) as [v Hv].
    assert (0 <= v)%Z as Hv0.
    { eapply Forall_forall; [exact Hpos|]. by eapply list_elem_of_lookup_2. }
    rewrite Hv. destruct (decide (v = 0%Z)) as [->|Hne].
    + right. split; [|done]. intros (? & [= <-] & ?). lia.
    + left. split; [exists v; split; [done|lia] | congruence].
Qed.

Lemma split_partition_witness :
  exists c s,
    split_days_by_stockout
      (Array2d [[1; 2]; [3; 4]; [5; 6]]%Z 2) [4; 0; 1]%Z = Ok (c, s)
    /\ shape0 c + shape0 s = 3.
Proof.
  destruct (split_partition (Array2d [[1; 2]; [3; 4]; [5; 6]]%Z 2) [4; 0; 1]%Z)
    as (c & s & Heq & Hn & _).
  - repeat constructor; discriminate.
  - reflexivity.
  - exists c, s. split; [exact Heq | exact Hn].
Defined.

(** C5 as stated fails on a day with a negative inventory-remaining
    value: the day is in neither group and the sizes add up to 1, not 2. *)
Lemma split_loses_negative_day :
  exists c s,
    split_days_by_stockout (Array2d [[1; 2]; [3; 4]]%Z 2) [5; -1]%Z = Ok (c, s)
    /\ shape0 c + shape0 s <> shape0 (Array2d [[1; 2]; [3; 4]]%Z 2)
    /\ ([3; 4]%Z ∉ data c) /\ ([3; 4]%Z ∉ data s).
Proof.
  exists (Array2d [[1; 2]]%Z 2), (Array2d [] 2).
  split; [reflexivity|]. split; [unfold shape0; simpl; lia|]. split.
  - simpl. intros Hin. inversion Hin as [|? ? ? Hin']; inversion Hin'.
  - simpl. apply not_elem_of_nil.
Qed.

(** C10: the [k]-th row of [complete_days] is the row of the [k]-th day
    whose [unsold_daily] value is strictly positive, and the [k]-th row
    of [stockout_days] is the row of the [k]-th day whose value is 0; the
    days of each group are taken in increasing order. *)
Theorem split_rows_match_unsold (a : array2d) (u : list Z) (c s : array2d) :
  split_days_by_stockout a u = Ok (c, s) ->
  Forall2 (fun row i => data a !! i = Some row
                        /\ exists v, u !! i = Some v /\ (0 < v)%Z)
          (data c) (days_where (np.greater0 u))
  /\ Forall2 (fun row i => data a !! i = Some row /\ u !! i = Some 0%Z)
             (data s) (days_where (np.equal0 u))
  /\ StronglySorted lt (days_where (np.greater0 u))
  /\ StronglySorted lt (days_where (np.equal0 u)).
Proof.
  intros (-> & -> & Hlen)%split_days_by_stockout_Ok. unfold shape0 in Hlen.
  simpl. split; [|split; [|split]].
  - eapply Forall2_impl.
    + apply (compress_days_from 0). by rewrite greater0_length.
    + intros row i (j & -> & Hrow & Hmask). split; [done|].
      by apply greater0_lookup.
  - eapply Forall2_impl.
    + apply (compress_days_from 0). by rewrite equal0_length.
    + intros row i (j & -> & Hrow & Hmask). split; [done|].
      by apply equal0_lookup.
  - apply days_from_sorted.
  - apply days_from_sorted.
Qed.

Lemma split_rows_match_unsold_witness :
  Forall2 (fun row i => [[1; 2]; [3; 4]; [5; 6]]%Z !! i = Some row
                        /\ exists v, [4; 0; 1]%Z !! i = Some v /\ (0 < v)%Z)
          [[1; 2]; [5; 6]]%Z [0; 2]
  /\ Forall2 (fun row i => [[1; 2]; [3; 4]; [5; 6]]%Z !! i = Some row
                           /\ [4; 0; 1]%Z !! i = Some 0%Z)
             [[3; 4]]%Z [1].
Proof.
  destruct (split_rows_match_unsold
              (Array2d [[1; 2]; [3; 4]; [5; 6]]%Z 2) [4; 0; 1]%Z
              (Array2d [[1; 2]; [5; 6]]%Z 2) (Array2d [[3; 4]]%Z 2))
    as (Hc & Hs & _).
  - reflexivity.
  - split; [exact Hc | exact Hs].
Defined.

(** * The stockout-day predictor *)

Section counting.
Implicit Types (sales : list Z) (acc t : Z).

Lemma cumsum_from_length acc sales :
  length (np.cumsum_from acc sales) = length sales.
Proof.
  revert acc. induction sales as [|x sales IH]; intros acc; simpl; [done|].
  by rewrite IH.
Qed.

(** [np.count_nonzero] after [np.where] counts the periods that are
    below [t] and have sales of their own. *)
Lemma count_where_nonzero acc t sales :
  np.count_nonzero
    (np.where_ (np.less (np.cumsum_from acc sales) t) sales 0%Z)
  = length (filter (fun p : Z * Z => (p.1 < t)%Z /\ p.2 <> 0%Z)
                   (zip (np.cumsum_from acc sales) sales)).
Proof.
  unfold np.count_nonzero.
  revert acc. induction sales as [|x sales IH]; intros acc; simpl; [done|].
  rewrite !filter_cons. simpl. specialize (IH (acc + x)%Z).
  destruct (bool_decide_reflect (acc + x < t)%Z) as [Hlt|Hge];
    destruct (decide (x = 0%Z)) as [->|Hx].
  - rewrite decide_False by tauto. rewrite decide_False by tauto. done.
  - rewrite decide_True by done. rewrite decide_True by done.
    simpl. by rewrite IH.
  - rewrite decide_False by tauto. rewrite decide_False by tauto. done.
  - rewrite decide_False by tauto. rewrite decide_False by tauto. done.
Qed.

(** Below [t], a period either has sales or has none. *)
Lemma count_below_split acc t sales :
  length (filter (fun p : Z * Z => (p.1 < t)%Z /\ p.2 <> 0%Z)
                 (zip (np.cumsum_from acc sales) sales))
  + length (filter (fun p : Z * Z => (p.1 < t)%Z /\ p.2 = 0%Z)
                   (zip (np.cumsum_from acc sales) sales))
  = length (filter (fun c => (c < t)%Z) (np.cumsum_from acc sales)).
Proof.
  revert acc. induction sales as [|x sales IH]; intros acc; simpl; [done|].
  rewrite !filter_cons. simpl. specialize (IH (acc + x)%Z).
  repeat case_decide; simpl; try lia; exfalso; naive_solver lia.
Qed.

Lemma count_nonzero_positive acc t sales :
  Forall (fun x => (0 <= x)%Z) sales ->
  length (filter (fun p : Z * Z => (p.1 < t)%Z /\ p.2 <> 0%Z)
                 (zip (np.cumsum_from acc sales) sales))
  = length (filter (fun p : Z * Z => (p.1 < t)%Z /\ (0 < p.2)%Z)
                   (zip (np.cumsum_from acc sales) sales)).
Proof.
  intros Hpos. revert acc.
  induction Hpos as [|x sales Hx _ IH]; intros acc; simpl; [done|].
  rewrite !filter_cons. simpl. specialize (IH (acc + x)%Z).
  repeat case_decide; simpl; try lia; exfalso; naive_solver lia.
Qed.

(** The last running sum is the total, so it is never below it. *)
Lemma count_below_lt_length acc sales :
  sales <> [] ->
  length (filter (fun c => (c < acc + np.sum sales)%Z)
                 (np.cumsum_from acc sales))
  < length sales.
Proof.
  revert acc. induction sales as [|x sales IH]; intros acc Hne; [done|].
  simpl. rewrite filter_cons.
  destruct sales as [|y sales].
  - simpl. rewrite decide_False by lia. simpl. lia.
  - specialize (IH (acc + x)%Z ltac:(done)).
    replace (acc + x + np.sum (y :: sales))%Z
      with (acc + (x + np.sum (y :: sales)))%Z in IH by lia.
    change (np.sum (x :: y :: sales)) with (x + np.sum (y :: sales))%Z.
    case_decide; simpl in *; lia.
Qed.

Lemma num_known_periods_eq sales :
  num_known_periods sales
  = length (filter (fun p : Z * Z => (p.1 < np.sum sales)%Z /\ p.2 <> 0%Z)
                   (zip (np.cumsum sales) sales)).
Proof. apply count_where_nonzero. Qed.

Lemma num_known_plus_zero sales :
  num_known_periods sales + zero_below_total sales = num_below_total sales.
Proof. rewrite num_known_periods_eq. apply count_below_split. Qed.

Lemma num_below_total_lt sales :
  sales <> [] -> num_below_total sales < length sales.
Proof. intros Hne. by apply (count_below_lt_length 0). Qed.

Lemma num_below_total_le sales : num_below_total sales <= length sales.
Proof.
  unfold num_below_total. etrans; [apply length_filter|].
  unfold np.cumsum. by rewrite cumsum_from_length.
Qed.

(** A zero-sales period below the total is counted by
    [zero_below_total]. *)
Lemma zero_below_total_pos sales i c :
  sales !! i = Some 0%Z -> np.cumsum sales !! i = Some c ->
  (c < np.sum sales)%Z -> 0 < zero_below_total sales.
Proof.
  intros Hs Hc Hlt. unfold zero_below_total.
  assert ((c, 0%Z) ∈ filter (fun p : Z * Z => (p.1 < np.sum sales)%Z /\ p.2 = 0%Z)
                        (zip (np.cumsum sales) sales)) as Hin.
  { apply list_elem_of_filter. split; [done|].
    apply (list_elem_of_lookup_2 _ i). rewrite lookup_zip_with, Hc. simpl.
    by rewrite Hs. }
  destruct (filter _ _); [by apply elem_of_nil in Hin | simpl; lia].
Qed.
End counting.

Section predictor.
Context `{Regression}.
Implicit Types (sales : list Z) (period_models : gmap nat Model).

(** The function in terms of its local variables. *)
Lemma predict_stockout_day_demand_eq sales period_models :
  predict_stockout_day_demand sales period_models
  = if decide (0 < num_known_periods sales) then
      match period_models !! num_known_periods sales with
      | Some model => Ok (Predicted (predict model (known_demand sales)))
      | None => Raise (KeyError (num_known_periods sales))
      end
    else Ok NaN.
Proof. reflexivity. Qed.

Lemma predict_day_NaN sales period_models :
  num_known_periods sales = 0 ->
  predict_stockout_day_demand sales period_models = Ok NaN.
Proof.
  intros Hzero. rewrite predict_stockout_day_demand_eq.
  by rewrite decide_False by lia.
Qed.

Lemma predict_day_found sales period_models model :
  0 < num_known_periods sales ->
  period_models !! num_known_periods sales = Some model ->
  predict_stockout_day_demand sales period_models
  = Ok (Predicted (predict model (known_demand sales))).
Proof.
  intros Hpos Hlook. rewrite predict_stockout_day_demand_eq.
  rewrite decide_True by done. by rewrite Hlook.
Qed.

Lemma predict_day_missing sales period_models :
  0 < num_known_periods sales ->
  period_models !! num_known_periods sales = None ->
  predict_stockout_day_demand sales period_models
  = Raise (KeyError (num_known_periods sales)).
Proof.
  intros Hpos Hlook. rewrite predict_stockout_day_demand_eq.
  rewrite decide_True by done. by rewrite Hlook.
Qed.
End predictor.

(** C1 fails on the code: in [0, 5, 3] the running sums are [0, 5, 8], the
    first two periods are strictly below the total 8, but
    [np.count_nonzero] looks at the masked sales [0, 5, 0] and finds one
    known period; the known demand is then the sum of the first period
    alone, 0, and the model asked is the one of key 1. *)
Theorem zero_sales_period_not_counted :
  np.cumsum [0; 5; 3]%Z = [0; 5; 8]%Z
  /\ num_below_total [0; 5; 3]%Z = 2
  /\ known_periods [0; 5; 3]%Z = [0; 5; 0]%Z
  /\ num_known_periods [0; 5; 3]%Z = 1
  /\ known_demand [0; 5; 3]%Z = 0%Z
  /\ num_known_periods [0; 5; 3]%Z <> num_below_total [0; 5; 3]%Z.
Proof. repeat split; try reflexivity. vm_compute. discriminate. Qed.

(** C2: on a record without negative entries, [num_known_periods] is the
    number of periods with strictly positive sales among those whose
    running sum is strictly below the day's total; [known_demand] is the
    sum of the first [num_known_periods] periods and the model asked is
    the one stored under that number.  Every zero-sales period below the
    total lowers the count by one, so that with such a period the model
    index and the summed prefix are strictly smaller than with the count
    of all periods below the total. *)
Theorem num_known_counts_positive_sales `{Regression} (sales : list Z) :
  Forall (fun x => (0 <= x)%Z) sales ->
  num_known_periods sales = positive_below_total sales
  /\ known_demand sales = np.sum (take (positive_below_total sales) sales)
  /\ (forall period_models model,
        0 < positive_below_total sales ->
        period_models !! positive_below_total sales = Some model ->
        predict_stockout_day_demand sales period_models
        = Ok (Predicted (predict model
                (np.sum (take (positive_below_total sales) sales)))))
  /\ num_known_periods sales + zero_below_total sales = num_below_total sales
  /\ (forall i c,
        sales !! i = Some 0%Z -> np.cumsum sales !! i = Some c ->
        (c < np.sum sales)%Z ->
        num_known_periods sales < num_below_total sales
        /\ length (take (num_known_periods sales) sales)
           < length (take (num_below_total sales) sales)).
Proof.
  intros Hpos.
  assert (num_known_periods sales = positive_below_total sales) as Hnum.
  { rewrite num_known_periods_eq. by apply count_nonzero_positive. }
  split; [done|]. split; [unfold known_demand; by rewrite Hnum|].
  split; [|split].
  - intros period_models model Hgt Hlook. rewrite <- Hnum in *.
    by apply predict_day_found.
  - apply num_known_plus_zero.
  - intros i c Hs Hc Hlt.
    pose proof (zero_below_total_pos sales i c Hs Hc Hlt) as Hz.
    pose proof (num_known_plus_zero sales) as Hsum.
    pose proof (num_below_total_le sales) as Hle.
    split; [lia|]. rewrite !length_take. lia.
Qed.

Lemma num_known_counts_positive_sales_witness :
  num_known_periods [0; 5; 3]%Z = 1
  /\ num_known_periods [0; 5; 3]%Z < num_below_total [0; 5; 3]%Z.
Proof.
  destruct (@num_known_counts_positive_sales exact_ols [0; 5; 3]%Z)
    as (Hnum & _ & _ & _ & Hzero).
  - repeat constructor; discriminate.
  - split; [exact Hnum|].
    apply (Hzero 0 0%Z); reflexivity.
Defined.

(** C3: when no period is known, [predict_stockout_day_demand] returns
    [np.NaN], which is neither a prediction nor an exception; the record
    [0, 0, 5] is such a day, whatever the model table. *)
Theorem no_known_period_gives_NaN `{Regression} :
  (forall sales period_models,
     num_known_periods sales = 0 ->
     predict_stockout_day_demand sales period_models = Ok NaN
     /\ (forall p, predict_stockout_day_demand sales period_models
                   <> Ok (Predicted p))
     /\ (forall e, predict_stockout_day_demand sales period_models
                   <> Raise e))
  /\ (forall period_models,
        num_known_periods [0; 0; 5]%Z = 0
        /\ predict_stockout_day_demand [0; 0; 5]%Z period_models = Ok NaN).
Proof.
  split.
  - intros sales period_models Hzero.
    rewrite (predict_day_NaN sales period_models Hzero).
    split; [done|]. split; intros ?; discriminate.
  - intros period_models. split; [reflexivity|].
    by apply predict_day_NaN.
Qed.

Lemma no_known_period_gives_NaN_witness :
  @predict_stockout_day_demand exact_ols [7]%Z ∅ = Ok NaN.
Proof.
  apply (proj1 (@no_known_period_gives_NaN exact_ols) [7]%Z ∅).
  reflexivity.
Defined.

(** C7: for the record [10, 8, 0] the day's total is 18 and the running
    sums are [10, 18, 18]; one period is known, the known demand is 10,
    and the call returns what the model stored under key 1 predicts
    from 10. *)
Theorem known_case_10_8_0 `{Regression}
    (period_models : gmap nat Model) (model : Model) :
  period_models !! 1 = Some model ->
  np.sum [10; 8; 0]%Z = 18%Z
  /\ np.cumsum [10; 8; 0]%Z = [10; 18; 18]%Z
  /\ num_known_periods [10; 8; 0]%Z = 1
  /\ known_demand [10; 8; 0]%Z = 10%Z
  /\ predict_stockout_day_demand [10; 8; 0]%Z period_models
     = Ok (Predicted (predict model 10%Z)).
Proof.
  intros Hlook. repeat split; try reflexivity.
  apply (predict_day_found [10; 8; 0]%Z period_models model);
    [vm_compute; lia | exact Hlook].
Qed.

Lemma known_case_10_8_0_witness :
  @predict_stockout_day_demand exact_ols [10; 8; 0]%Z {[ 1 := (3, 1)%Z ]}
  = Ok (@Predicted exact_ols (30, 1)%Z).
Proof.
  apply (@known_case_10_8_0 exact_ols {[ 1 := (3, 1)%Z ]} (3, 1)%Z).
  reflexivity.
Defined.

(** * The model trainer *)

Section trainer.
Context `{Regression}.

(** A loop that stores [f k] under every key [k] of [ks]. *)
Lemma foldl_insert_lookup (f : nat -> Model) (ks : list nat)
    (m0 : gmap nat Model) (k : nat) :
  foldl (fun m p => <[p := f p]> m) m0 ks !! k
  = if decide (k ∈ ks) then Some (f k) else m0 !! k.
Proof.
  revert m0. induction ks as [|p ks IH]; intros m0; cbn [foldl].
  - rewrite decide_False; [done | apply not_elem_of_nil].
  - rewrite IH. destruct (decide (k ∈ ks)) as [Hin|Hout].
    + rewrite decide_True; [done | by apply elem_of_cons; right].
    + destruct (decide (k = p)) as [->|Hne].
      * rewrite lookup_insert_eq.
        rewrite decide_True; [done | by apply elem_of_cons; left].
      * rewrite lookup_insert_ne by done.
        rewrite decide_False; [done|].
        intros [?|?]%elem_of_cons; done.
Qed.

Lemma trained_table_lookup (complete_days : array2d) (k : nat) :
  trained_table complete_days !! k
  = if decide (1 <= k <= shape1 complete_days - 1)
    then Some (fit_period complete_days k) else None.
Proof.
  unfold trained_table.
  rewrite (foldl_insert_lookup (fit_period complete_days)).
  rewrite lookup_empty.
  destruct (decide (k ∈ seq 1 (shape1 complete_days - 1)))
    as [Hin|Hout]; rewrite elem_of_seq in *.
  - rewrite decide_True; [done | lia].
  - rewrite decide_False; [done | lia].
Qed.



Lemma training_loop_raised (complete_days : array2d) (e : exn)
    (ks : list nat) :
  foldl (training_step complete_days) (Raise e) ks = Raise e.
Proof. induction ks as [|k ks IH]; [done | exact IH]. Qed.

Lemma training_loop_returns (complete_days : array2d)
    (m : gmap nat Model) (ks : list nat) :
  data complete_days <> [] ->
  foldl (training_step complete_days) (Ok m) ks
  = Ok (foldl (fun m p => <[p := fit_period complete_days p]> m) m ks).
Proof.
  intros Hne. revert m. induction ks as [|k ks IH]; intros m; [done|].
  cbn [foldl]. rewrite <- IH. f_equal.
  unfold training_step, fit_period, sm.OLS, np.sum_axis1. cbn [mbind res_bind].
  destruct (data complete_days); [done | reflexivity].
Qed.

(** With at least one complete day every fit returns. *)
Lemma create_models_returns (complete_days : array2d) :
  data complete_days <> [] ->
  create_models_by_known_periods complete_days
  = Ok (trained_table complete_days).
Proof. intros Hne. by apply training_loop_returns. Qed.

(** Without a complete day the first fit raises. *)
Lemma create_models_no_rows (complete_days : array2d) :
  data complete_days = [] ->
  2 <= shape1 complete_days ->
  create_models_by_known_periods complete_days = Raise ValueError.
Proof.
  intros Hnil HP. unfold create_models_by_known_periods.
  change (foldl (training_step complete_days) (Ok ∅)
                (seq 1 (shape1 complete_days - 1)) = Raise ValueError).
  destruct (shape1 complete_days - 1) as [|n] eqn:Hn; [lia|].
  cbn [seq foldl].
  replace (training_step complete_days (Ok ∅) 1) with
    (@Raise (gmap nat Model) ValueError).
  - apply training_loop_raised.
  - unfold training_step, sm.OLS, np.sum_axis1. by rewrite Hnil.
Qed.

(** With fewer than two periods the loop has no round. *)
Lemma create_models_no_round (complete_days : array2d) :
  shape1 complete_days <= 1 ->
  create_models_by_known_periods complete_days = Ok ∅.
Proof.
  intros HP. unfold create_models_by_known_periods.
  by replace (shape1 complete_days - 1) with 0 by lia.
Qed.

(** A call that returns has returned the table of all periods. *)
Lemma create_models_Ok (complete_days : array2d)
    (period_models : gmap nat Model) :
  create_models_by_known_periods complete_days = Ok period_models ->
  period_models = trained_table complete_days.
Proof.
  intros Hok. destruct (decide (data complete_days = [])) as [Hnil|Hne].
  - destruct (decide (2 <= shape1 complete_days)) as [HP|HP].
    + by rewrite create_models_no_rows in Hok.
    + rewrite create_models_no_round in Hok by lia. simplify_eq.
      unfold trained_table. by replace (shape1 complete_days - 1) with 0 by lia.
  - rewrite create_models_returns in Hok by done. by simplify_eq.
Qed.
End trainer.

(** In a rectangular array the sum of a row is the sum of its
    [shape1] periods. *)
Lemma row_sums_all_periods (a : array2d) :
  rectangular a ->
  map np.sum (data a) = map (fun row => np.sum (take (shape1 a) row)) (data a).
Proof.
  unfold rectangular. induction 1 as [|row rows Hrow _ IH]; simpl; [done|].
  rewrite IH. by rewrite take_ge by lia.
Qed.






(** * The day predictor on fractional records *)

Lemma f64_predict_stockout_day_demand_eq `{Regression}
    (predict64 : Model -> float -> Pred)
    (sales : list float) (period_models : gmap nat Model) :
  f64.predict_stockout_day_demand predict64 sales period_models
  = if decide (0 < f64.num_known_periods sales) then
      match period_models !! f64.num_known_periods sales with
      | Some model =>
          Ok (Predicted (predict64 model
                (f64.sum (take (f64.num_known_periods sales) sales))))
      | None => Raise (KeyError (f64.num_known_periods sales))
      end
    else Ok NaN.
Proof. reflexivity. Qed.

(** The fuel of [f64.pairwise_sum] is never used up: any two amounts of
    at least the length of the array give the same sum. *)
Lemma pairwise_sum_fuel (f1 f2 : nat) (a : list float) :
  length a <= f1 -> length a <= f2 ->
  f64.pairwise_sum f1 a = f64.pairwise_sum f2 a.
Proof.
  revert f2 a. induction f1 as [|f1 IH]; intros f2 a H1 H2.
  - destruct a; [|simpl in H1; lia]. by destruct f2.
  - destruct f2 as [|f2].
    { destruct a; [done | simpl in H2; lia]. }
    cbn [f64.pairwise_sum].
    destruct (length a <? 8) eqn:H8; [done|].
    destruct (length a <=? 128) eqn:H128; [done|].
    apply Nat.leb_gt in H128.
    assert (length a / 2 <= length a) as Hhalf
      by (apply Nat.Div0.div_le_upper_bound; lia).
    assert (64 <= length a / 2) as H64
      by (apply Nat.div_le_lower_bound; lia).
    pose proof (Nat.mod_upper_bound (length a / 2) 8 ltac:(lia)) as Hmod.
    assert (length a / 2 < length a) as Hlt
      by (apply Nat.div_lt; lia).
    f_equal; apply IH; rewrite ?length_take, ?length_drop; lia.
Qed.

(** C9 fails on the code for a record of fractional values: the ten
    entries 0.1 are non-negative, [np.sum] adds them to 1 and the last
    entry of [np.cumsum] is just below 1, so that all ten periods count
    as known; the table trained on complete days of ten periods has the
    keys 1 to 9 only, and the lookup raises KeyError. *)
Theorem fractional_record_raises_KeyError `{Regression}
    (predict64 : Model -> float -> Pred)
    (complete_days : array2d) (period_models : gmap nat Model) :
  shape1 complete_days = 10 ->
  create_models_by_known_periods complete_days = Ok period_models ->
  let sales := replicate 10 f64.tenth in
  length sales = 10
  /\ Forall (fun x => PrimFloat.leb 0 x = true) sales
  /\ f64.sum sales = 1%float
  /\ last (f64.cumsum sales) = Some 0x1.fffffffffffffp-1%float
  /\ f64.num_known_periods sales = 10
  /\ period_models !! 10 = None
  /\ f64.predict_stockout_day_demand predict64 sales period_models
     = Raise (KeyError 10).
Proof.
  intros Hshape Hok sales.
  assert (f64.num_known_periods sales = 10) as Hn
    by (vm_compute; reflexivity).
  assert (period_models !! 10 = None) as Hnone.
  { rewrite (create_models_Ok _ _ Hok), trained_table_lookup, Hshape.
    by rewrite decide_False by lia. }
  split; [reflexivity|]. split; [repeat constructor|].
  split; [vm_compute; reflexivity|]. split; [vm_compute; reflexivity|].
  split; [done|]. split; [done|].
  rewrite f64_predict_stockout_day_demand_eq, Hn.
  rewrite decide_True by lia. by rewrite Hnone.
Qed.

Lemma fractional_record_raises_KeyError_witness :
  exists period_models,
    @create_models_by_known_periods exact_ols
      (Array2d [replicate 10 1%Z; replicate 10 2%Z] 10) = Ok period_models
    /\ @f64.predict_stockout_day_demand exact_ols (fun m _ => m)
         (replicate 10 f64.tenth) period_models
       = Raise (KeyError 10).
Proof.
  exists (@trained_table exact_ols
            (Array2d [replicate 10 1%Z; replicate 10 2%Z] 10)).
  split; [reflexivity|].
  apply (@fractional_record_raises_KeyError exact_ols (fun m _ => m)
           (Array2d [replicate 10 1%Z; replicate 10 2%Z] 10)).
  - reflexivity.
  - reflexivity.
Defined.

(** * The batch predictor *)

Section batch.
Context {A B : Type} (f : A -> res B).

Lemma mapM_res_Ok (l : list A) (out : list B) :
  mapM f l = Ok out <-> Forall2 (fun x y => f x = Ok y) l out.
Proof.
  revert out. induction l as [|x l IH]; intros out; simpl.
  - split.
    + intros Heq. injection Heq as <-. constructor.
    + intros Hall. by inversion Hall.
  - unfold mbind, res_bind, mret, res_ret.
    destruct (f x) as [y|e] eqn:Hfx.
    + destruct (mapM f l) as [ys|e] eqn:Hrest.
      * split.
        -- intros Heq. injection Heq as <-.
           constructor; [done | by apply IH].
        -- intros Hall. inversion Hall as [|? y' ? ys' Hy Hys]; subst.
           apply IH in Hys. congruence.
      * split; [discriminate|].
        intros Hall. inversion Hall as [|? y' ? ys' Hy Hys]; subst.
        apply IH in Hys. discriminate.
    + split; [discriminate|].
      intros Hall. inversion Hall as [|? y' ? ys' Hy Hys]; subst.
      congruence.
Qed.
End batch.

(** On at least one row, [np.apply_along_axis] is the row-by-row
    application: it returns [out] exactly when [out] has one entry per
    row, each the result of the function on that row alone. *)
Lemma apply_along_axis1_rows {B : Type} (f : list Z -> res B)
    (arr : array2d) (out : list B) :
  data arr <> [] ->
  np.apply_along_axis1 f arr = Ok out
  <-> Forall2 (fun row y => f row = Ok y) (data arr) out.
Proof.
  intros Hne. rewrite <- mapM_res_Ok. unfold np.apply_along_axis1.
  by destruct (data arr).
Qed.

(** X7: on at least one row, the batch returns [out] exactly when
    [out] has one estimate per row, in row order, each the result of
    [predict_stockout_day_demand] on that row alone. *)
Lemma predict_stockout_daily_demand_rows `{Regression}
    (stockout_days : array2d) (period_models : gmap nat Model)
    (out : list estimate) :
  data stockout_days <> [] ->
  predict_stockout_daily_demand stockout_days period_models = Ok out
  <-> Forall2 (fun row e => predict_stockout_day_demand row period_models = Ok e)
              (data stockout_days) out.
Proof. apply apply_along_axis1_rows. Qed.

(** C8 fails on the code when there is no stockout day: applying the
    day predictor to each of the zero rows gives the empty sequence, but
    [np.apply_along_axis] raises ValueError on an array without rows,
    whatever the model table. *)
Theorem batch_raises_without_rows `{Regression}
    (P : nat) (period_models : gmap nat Model) :
  mapM (fun row => predict_stockout_day_demand row period_models)
       (data (Array2d [] P)) = Ok []
  /\ predict_stockout_daily_demand (Array2d [] P) period_models
     = Raise ValueError.
Proof. split; reflexivity. Qed.


(** * The sales simulator *)

Section simulator.
Implicit Types (p acc : Z) (demand : list Z).

(** One row of [total_period_sales], computed as the source does. *)
Lemma total_row_eq p acc demand :
  let remaining := map (fun c => (p - c)%Z) (np.cumsum_from acc demand) in
  let cond := map (fun v => bool_decide (v < 0)%Z) remaining in
  let completed := zip_with (fun (c : bool) x => if c then 0%Z else x) cond demand in
  let incompleted :=
    zip_with (fun (c : bool) x => if c then x else 0%Z) cond
             (zip_with Z.add demand remaining) in
  let partial :=
    zip_with (fun (c : bool) x => if c then 0%Z else x)
             (map (fun v => bool_decide (v < 0)%Z) incompleted) incompleted in
  zip_with Z.add completed partial = sales_from p acc demand.
Proof.
  revert acc. induction demand as [|d demand IH]; intros acc; simpl; [done|].
  f_equal; [|apply IH].
  unfold period_sale.
  destruct (bool_decide (p - (acc + d) < 0)%Z); simpl.
  - destruct (bool_decide (d + (p - (acc + d)) < 0)%Z); simpl; lia.
  - lia.
Qed.

(** The two results of the simulator, day by day. *)
Lemma generate_daily_period_sales_rows
    (daily_period_demand : array2d) (daily_production : list Z) :
  generate_daily_period_sales daily_period_demand daily_production
  = (Array2d (zip_with day_sales daily_production (data daily_period_demand))
             (shape1 daily_period_demand),
     zip_with (fun p demand => (p - np.sum (day_sales p demand))%Z)
              daily_production (data daily_period_demand)).
Proof.
  unfold generate_daily_period_sales.
  generalize (data daily_period_demand) as rows. intros rows.
  assert (forall production,
    np2.add
      (np2.where_scalar_array
         (np2.less0 (np2.column_minus production (np2.cumsum_axis1 rows)))
         0%Z rows)
      (np2.where_scalar_array
         (np2.less0
            (np2.where_array_scalar
               (np2.less0 (np2.column_minus production (np2.cumsum_axis1 rows)))
               (np2.add rows (np2.column_minus production (np2.cumsum_axis1 rows)))
               0%Z))
         0%Z
         (np2.where_array_scalar
            (np2.less0 (np2.column_minus production (np2.cumsum_axis1 rows)))
            (np2.add rows (np2.column_minus production (np2.cumsum_axis1 rows)))
            0%Z))
    = zip_with day_sales production rows) as Hrows.
  { induction rows as [|row rows IH]; intros [|p production]; simpl; try done.
    f_equal; [|apply IH]. apply (total_row_eq p 0%Z row). }
  cbv zeta. rewrite Hrows. f_equal.
  unfold np2.subtract, np.sum_axis1.
  clear Hrows. revert rows. induction daily_production as [|p production IH];
    intros [|row rows]; simpl; try done.
  f_equal. apply IH.
Qed.

End simulator.

Section day_sales_facts.
Implicit Types (p acc : Z) (demand : list Z).

Lemma sales_from_length p acc demand :
  length (sales_from p acc demand) = length demand.
Proof.
  revert acc. induction demand as [|d demand IH]; intros acc; simpl; [done|].
  by rewrite IH.
Qed.

Lemma sum_nonneg demand :
  Forall (fun d => (0 <= d)%Z) demand -> (0 <= np.sum demand)%Z.
Proof. induction 1 as [|d demand Hd _ IH]; simpl; lia. Qed.

(** A day sells its demand up to what is left of the production, and
    nothing when nothing is left. *)
Lemma sales_from_sum p acc demand :
  Forall (fun d => (0 <= d)%Z) demand ->
  np.sum (sales_from p acc demand)
  = Z.max 0 (Z.min (p - acc) (np.sum demand)).
Proof.
  intros Hpos. revert acc.
  induction Hpos as [|d demand Hd Hrest IH]; intros acc; simpl; [lia|].
  rewrite IH. pose proof (sum_nonneg demand Hrest).
  unfold period_sale. repeat case_bool_decide; lia.
Qed.

Lemma sales_from_bounds p acc demand :
  Forall (fun d => (0 <= d)%Z) demand ->
  Forall2 (fun s d => (0 <= s <= d)%Z) (sales_from p acc demand) demand.
Proof.
  intros Hpos. revert acc.
  induction Hpos as [|d demand Hd _ IH]; intros acc; simpl; constructor;
    [|apply IH].
  unfold period_sale. repeat case_bool_decide; lia.
Qed.

Lemma sales_from_uncensored p acc demand :
  Forall (fun d => (0 <= d)%Z) demand ->
  (acc + np.sum demand <= p)%Z ->
  sales_from p acc demand = demand.
Proof.
  intros Hpos. revert acc.
  induction Hpos as [|d demand Hd Hrest IH]; intros acc Hle; simpl in *; [done|].
  pose proof (sum_nonneg demand Hrest).
  rewrite IH by lia. f_equal.
  unfold period_sale. rewrite bool_decide_eq_false_2 by lia. done.
Qed.

Lemma sales_from_sold_out p acc demand :
  Forall (fun d => (0 <= d)%Z) demand ->
  (p - acc <= 0)%Z ->
  sales_from p acc demand = replicate (length demand) 0%Z.
Proof.
  intros Hpos. revert acc.
  induction Hpos as [|d demand Hd _ IH]; intros acc Hle; simpl; [done|].
  rewrite IH by lia. f_equal.
  unfold period_sale. repeat case_bool_decide; lia.
Qed.

(** What is sold up to a period does not depend on later demand. *)
Lemma sales_from_take p acc demand k :
  sales_from p acc (take k demand) = take k (sales_from p acc demand).
Proof.
  revert acc k. induction demand as [|d demand IH]; intros acc [|k]; simpl;
    try done.
  by rewrite IH.
Qed.

End day_sales_facts.

(** The simulated day [i]: its sales row and its unsold value. *)
Lemma simulated_day (daily_period_demand : array2d)
    (daily_production : list Z) (i : nat) (p : Z) (demand : list Z) :
  daily_production !! i = Some p ->
  data daily_period_demand !! i = Some demand ->
  let out := generate_daily_period_sales daily_period_demand daily_production in
  data out.1 !! i = Some (day_sales p demand)
  /\ out.2 !! i = Some (p - np.sum (day_sales p demand))%Z.
Proof.
  intros Hp Hd. rewrite generate_daily_period_sales_rows. simpl.
  rewrite !lookup_zip_with, Hp. simpl. by rewrite Hd.
Qed.

Lemma same_lengths_rectangular (P : nat) (ss ds : list (list Z)) :
  Forall2 (fun s d => length s = length d) ss ds ->
  Forall (fun d => length d = P) ds ->
  Forall (fun s => length s = P) ss.
Proof.
  induction 1 as [|s d ss ds Hsd _ IH]; intros Hrect; [constructor|].
  inversion Hrect as [|? ? Hd Hds]; subst.
  constructor; [congruence | by apply IH].
Qed.

(** X11: the simulator keeps the shape of the demand: one sales row and one
    unsold value per day, every sales row as long as its demand row. *)
Theorem simulator_shapes (daily_period_demand : array2d)
    (daily_production : list Z) :
  length daily_production = shape0 daily_period_demand ->
  let out := generate_daily_period_sales daily_period_demand daily_production in
  shape0 out.1 = shape0 daily_period_demand
  /\ shape1 out.1 = shape1 daily_period_demand
  /\ length out.2 = shape0 daily_period_demand
  /\ Forall2 (fun sales demand => length sales = length demand)
             (data out.1) (data daily_period_demand)
  /\ (rectangular daily_period_demand -> rectangular out.1).
Proof.
  intros Hlen. rewrite generate_daily_period_sales_rows. simpl.
  unfold shape0, rectangular in *. simpl.
  assert (Forall2 (fun sales demand => length sales = length demand)
            (zip_with day_sales daily_production (data daily_period_demand))
            (data daily_period_demand)) as Hrows.
  { revert Hlen. generalize (data daily_period_demand) as rows.
    induction daily_production as [|p production IH]; intros [|row rows] Hlen;
      simplify_eq/=; constructor; [apply sales_from_length | by apply IH]. }
  split; [|split; [done|split; [|split; [done|]]]].
  - rewrite length_zip_with. lia.
  - rewrite length_zip_with. lia.
  - intros Hrect. by eapply same_lengths_rectangular.
Qed.

Lemma simulator_shapes_witness :
  let out := generate_daily_period_sales
               (Array2d [[3; 4; 5]; [2; 2; 2]]%Z 3) [7; 10]%Z in
  shape0 out.1 = 2 /\ shape1 out.1 = 3 /\ length out.2 = 2.
Proof.
  intros out.
  destruct (simulator_shapes (Array2d [[3; 4; 5]; [2; 2; 2]]%Z 3) [7; 10]%Z)
    as (H0 & H1 & H2 & _).
  - reflexivity.
  - split; [exact H0 | split; [exact H1 | exact H2]].
Defined.

(** X12: on a day of non-negative demand the simulator sells the smaller of
    the production and the day's demand (nothing for a negative
    production), and reports the rest of the production as unsold; with
    a non-negative production it never sells more than was produced and
    the unsold value is not negative. *)
Theorem simulated_day_totals (daily_period_demand : array2d)
    (daily_production : list Z) (i : nat) (p : Z) (demand : list Z) :
  daily_production !! i = Some p ->
  data daily_period_demand !! i = Some demand ->
  Forall (fun d => (0 <= d)%Z) demand ->
  let out := generate_daily_period_sales daily_period_demand daily_production in
  exists sales unsold,
    data out.1 !! i = Some sales
    /\ out.2 !! i = Some unsold
    /\ np.sum sales = Z.max 0 (Z.min p (np.sum demand))
    /\ unsold = (p - Z.max 0 (Z.min p (np.sum demand)))%Z
    /\ ((0 <= p)%Z -> (0 <= unsold)%Z /\ (np.sum sales <= p)%Z)
    /\ (np.sum sales <= np.sum demand)%Z.
Proof.
  intros Hp Hd Hpos out.
  destruct (simulated_day _ _ _ _ _ Hp Hd) as [Hs Hu].
  exists (day_sales p demand), (p - np.sum (day_sales p demand))%Z.
  pose proof (sales_from_sum p 0 demand Hpos) as Hsum.
  pose proof (sum_nonneg demand Hpos).
  replace (p - 0)%Z with p in Hsum by lia. fold (day_sales p demand) in Hsum.
  split; [done|]. split; [done|]. rewrite Hsum. repeat split; lia.
Qed.

Lemma simulated_day_totals_witness :
  let out := generate_daily_period_sales
               (Array2d [[3; 4; 5]; [2; 2; 2]]%Z 3) [7; 10]%Z in
  exists sales unsold,
    data out.1 !! 0 = Some sales /\ out.2 !! 0 = Some unsold
    /\ np.sum sales = 7%Z /\ unsold = 0%Z.
Proof.
  intros out.
  destruct (simulated_day_totals (Array2d [[3; 4; 5]; [2; 2; 2]]%Z 3)
              [7; 10]%Z 0 7%Z [3; 4; 5]%Z)
    as (sales & unsold & Hs & Hu & Hsum & Hunsold & _).
  - reflexivity.
  - reflexivity.
  - repeat constructor; lia.
  - exists sales, unsold. split; [exact Hs|]. split; [exact Hu|].
    split; [exact Hsum | exact Hunsold].
Defined.

(** X13: no period sells more than its demand, and no period sells a
    negative quantity. *)
Theorem simulated_sales_within_demand (daily_period_demand : array2d)
    (daily_production : list Z) (i : nat) (p : Z) (demand : list Z) :
  daily_production !! i = Some p ->
  data daily_period_demand !! i = Some demand ->
  Forall (fun d => (0 <= d)%Z) demand ->
  let out := generate_daily_period_sales daily_period_demand daily_production in
  exists sales,
    data out.1 !! i = Some sales
    /\ Forall2 (fun s d => (0 <= s <= d)%Z) sales demand.
Proof.
  intros Hp Hd Hpos out.
  destruct (simulated_day _ _ _ _ _ Hp Hd) as [Hs _].
  exists (day_sales p demand). split; [done|]. by apply sales_from_bounds.
Qed.

Lemma simulated_sales_within_demand_witness :
  let out := generate_daily_period_sales
               (Array2d [[3; 4; 5]; [2; 2; 2]]%Z 3) [7; 10]%Z in
  exists sales,
    data out.1 !! 0 = Some sales
    /\ Forall2 (fun s d => (0 <= s <= d)%Z) sales [3; 4; 5]%Z.
Proof.
  intros out.
  apply (simulated_sales_within_demand (Array2d [[3; 4; 5]; [2; 2; 2]]%Z 3)
           [7; 10]%Z 0 7%Z [3; 4; 5]%Z).
  - reflexivity.
  - reflexivity.
  - repeat constructor; lia.
Defined.

(** X14: a simulated day has unsold units exactly when its demand stayed
    below its production, and then its sales row is its demand row: a
    day that [split_days_by_stockout] calls complete is not censored. *)
Theorem simulated_complete_day_uncensored (daily_period_demand : array2d)
    (daily_production : list Z) (i : nat) (p : Z) (demand : list Z) :
  daily_production !! i = Some p ->
  data daily_period_demand !! i = Some demand ->
  Forall (fun d => (0 <= d)%Z) demand ->
  let out := generate_daily_period_sales daily_period_demand daily_production in
  exists sales unsold,
    data out.1 !! i = Some sales
    /\ out.2 !! i = Some unsold
    /\ ((0 < unsold)%Z <-> (np.sum demand < p)%Z)
    /\ ((0 < unsold)%Z -> sales = demand).
Proof.
  intros Hp Hd Hpos out.
  destruct (simulated_day _ _ _ _ _ Hp Hd) as [Hs Hu].
  exists (day_sales p demand), (p - np.sum (day_sales p demand))%Z.
  pose proof (sales_from_sum p 0 demand Hpos) as Hsum.
  pose proof (sum_nonneg demand Hpos).
  replace (p - 0)%Z with p in Hsum by lia. fold (day_sales p demand) in Hsum.
  split; [done|]. split; [done|]. rewrite Hsum. split; [lia|].
  intros Hun. apply sales_from_uncensored; [done | lia].
Qed.

Lemma simulated_complete_day_uncensored_witness :
  let out := generate_daily_period_sales
               (Array2d [[3; 4; 5]; [2; 2; 2]]%Z 3) [7; 10]%Z in
  exists sales unsold,
    data out.1 !! 1 = Some sales
    /\ out.2 !! 1 = Some unsold
    /\ ((0 < unsold)%Z <-> (np.sum [2; 2; 2] < 10)%Z)
    /\ ((0 < unsold)%Z -> sales = [2; 2; 2]%Z).
Proof.
  intros out.
  apply (simulated_complete_day_uncensored
           (Array2d [[3; 4; 5]; [2; 2; 2]]%Z 3) [7; 10]%Z 1 10%Z [2; 2; 2]%Z).
  - reflexivity.
  - reflexivity.
  - repeat constructor; lia.
Defined.

(** X15: the unsold value of a simulated day is 0 exactly when the production
    is non-negative and the demand reached it, and then the whole
    production was sold; it is negative exactly when the production is
    negative, in which case nothing is sold and the unsold value is the
    production itself. *)
Theorem simulated_unsold_sign (daily_period_demand : array2d)
    (daily_production : list Z) (i : nat) (p : Z) (demand : list Z) :
  daily_production !! i = Some p ->
  data daily_period_demand !! i = Some demand ->
  Forall (fun d => (0 <= d)%Z) demand ->
  let out := generate_daily_period_sales daily_period_demand daily_production in
  exists sales unsold,
    data out.1 !! i = Some sales
    /\ out.2 !! i = Some unsold
    /\ (unsold = 0%Z <-> (0 <= p <= np.sum demand)%Z)
    /\ (unsold = 0%Z -> np.sum sales = p)
    /\ ((unsold < 0)%Z <-> (p < 0)%Z)
    /\ ((p < 0)%Z -> unsold = p /\ sales = replicate (length demand) 0%Z).
Proof.
  intros Hp Hd Hpos out.
  destruct (simulated_day _ _ _ _ _ Hp Hd) as [Hs Hu].
  exists (day_sales p demand), (p - np.sum (day_sales p demand))%Z.
  pose proof (sales_from_sum p 0 demand Hpos) as Hsum.
  pose proof (sum_nonneg demand Hpos).
  replace (p - 0)%Z with p in Hsum by lia. fold (day_sales p demand) in Hsum.
  split; [done|]. split; [done|].
  split; [lia|]. split; [lia|]. split; [lia|].
  intros Hneg. split; [lia|].
  apply sales_from_sold_out; [done | lia].
Qed.

Lemma simulated_unsold_sign_witness :
  let out := generate_daily_period_sales
               (Array2d [[3; 4; 5]; [2; 2; 2]]%Z 3) [7; -2]%Z in
  exists sales unsold,
    data out.1 !! 1 = Some sales
    /\ out.2 !! 1 = Some unsold
    /\ ((-2 < 0)%Z -> unsold = (-2)%Z /\ sales = replicate 3 0%Z).
Proof.
  intros out.
  destruct (simulated_unsold_sign
              (Array2d [[3; 4; 5]; [2; 2; 2]]%Z 3) [7; -2]%Z 1 (-2)%Z [2; 2; 2]%Z)
    as (sales & unsold & Hs & Hu & _ & _ & _ & Hneg).
  - reflexivity.
  - reflexivity.
  - repeat constructor; lia.
  - exists sales, unsold. split; [exact Hs|]. split; [exact Hu | exact Hneg].
Defined.

Section running_sums.
Implicit Types (acc t : Z) (l : list Z).

Lemma sum_app l k : np.sum (l ++ k) = (np.sum l + np.sum k)%Z.
Proof. induction l as [|x l IH]; simpl; [done | rewrite IH; lia]. Qed.

Lemma cumsum_from_lookup acc l i :
  i < length l ->
  np.cumsum_from acc l !! i = Some (acc + np.sum (take (S i) l))%Z.
Proof.
  revert acc i. induction l as [|x l IH]; intros acc i Hi; simpl in *; [lia|].
  destruct i as [|i]; simpl.
  - destruct l; simpl; f_equal; lia.
  - rewrite IH by lia. f_equal. simpl. lia.
Qed.

Lemma cumsum_from_ge acc l :
  Forall (fun x => (0 <= x)%Z) l ->
  Forall (fun c => (acc <= c)%Z) (np.cumsum_from acc l).
Proof.
  intros Hpos. revert acc.
  induction Hpos as [|x l Hx _ IH]; intros acc; simpl; constructor; [lia|].
  eapply Forall_impl; [apply IH|]. simpl. intros c Hc. lia.
Qed.

Lemma filter_below_nil (cs : list Z) t :
  Forall (fun c => (t <= c)%Z) cs -> filter (fun c => (c < t)%Z) cs = [].
Proof.
  induction 1 as [|c cs Hc _ IH]; [done|].
  rewrite filter_cons, decide_False by lia. done.
Qed.

(** The running sums of non-negative sales do not decrease, so those
    below a bound are the first ones. *)
Lemma below_is_prefix acc t l i c :
  Forall (fun x => (0 <= x)%Z) l ->
  np.cumsum_from acc l !! i = Some c ->
  i < length (filter (fun c => (c < t)%Z) (np.cumsum_from acc l)) ->
  (c < t)%Z.
Proof.
  intros Hpos. revert acc i.
  induction Hpos as [|x l Hx Hl IH]; intros acc i Hc Hi; simpl in *; [done|].
  rewrite filter_cons in Hi. destruct (decide (acc + x < t)%Z) as [Hlt|Hge].
  - destruct i as [|i]; simpl in *; [by simplify_eq|].
    apply (IH (acc + x)%Z i); [done | lia].
  - rewrite filter_below_nil in Hi; [simpl in Hi; lia|].
    eapply Forall_impl; [by apply cumsum_from_ge|]. simpl. intros; lia.
Qed.

Lemma sum_take_le l k :
  Forall (fun x => (0 <= x)%Z) l -> (np.sum (take k l) <= np.sum l)%Z.
Proof.
  intros Hpos. revert k.
  induction Hpos as [|x l Hx Hl IH]; intros [|k]; simpl; try lia.
  - pose proof (sum_nonneg l Hl). lia.
  - specialize (IH k). lia.
Qed.

End running_sums.

Lemma sales_from_lookup (p acc : Z) (demand : list Z) (i : nat) (d : Z) :
  demand !! i = Some d ->
  sales_from p acc demand !! i
  = Some (period_sale p (acc + np.sum (take i demand)) d).
Proof.
  revert acc i. induction demand as [|x demand IH]; intros acc i Hd; [done|].
  destruct i as [|i]; simpl in *.
  - simplify_eq. do 2 f_equal. lia.
  - rewrite (IH _ _ Hd). do 2 f_equal. lia.
Qed.

(** A period whose running sum of sales is below the day's sales sold
    its whole demand. *)
Lemma day_sales_below_uncensored (p : Z) (demand : list Z) (i : nat) :
  Forall (fun d => (0 <= d)%Z) demand ->
  i < num_below_total (day_sales p demand) ->
  day_sales p demand !! i = demand !! i.
Proof.
  intros Hpos Hi.
  pose proof (num_below_total_le (day_sales p demand)) as Hle.
  unfold day_sales in *. rewrite sales_from_length in Hle.
  destruct (lookup_lt_is_Some_2 demand i ltac:(lia)) as [d Hd].
  rewrite (sales_from_lookup p 0 demand i d Hd), Hd. f_equal.
  pose proof (sales_from_bounds p 0 demand Hpos) as Hbounds.
  assert (Forall (fun s => (0 <= s)%Z) (sales_from p 0 demand)) as Hspos.
  { clear -Hbounds. induction Hbounds; constructor; [lia | done]. }
  assert (np.cumsum_from 0 (sales_from p 0 demand) !! i
          = Some (0 + np.sum (take (S i) (sales_from p 0 demand)))%Z) as Hc.
  { apply cumsum_from_lookup. rewrite sales_from_length. lia. }
  pose proof (below_is_prefix 0 _ _ i _ Hspos Hc Hi) as Hlt.
  rewrite <- sales_from_take in Hlt.
  assert (Forall (fun d => (0 <= d)%Z) (take (S i) demand)) as Hpre
    by (by apply Forall_take).
  rewrite (sales_from_sum p 0 _ Hpre), (sales_from_sum p 0 _ Hpos) in Hlt.
  pose proof (sum_take_le demand (S i) Hpos) as Hmono.
  rewrite (take_S_r _ _ _ Hd), sum_app in Hlt, Hmono. simpl in Hlt, Hmono.
  unfold period_sale. rewrite bool_decide_eq_false_2; [done|]. lia.
Qed.

(** X17: on a simulated day of non-negative demand, the periods that
    [predict_stockout_day_demand] takes as known sold their whole
    demand: the known demand it sums is the true demand of these
    periods. *)
Theorem simulated_known_periods_uncensored (daily_period_demand : array2d)
    (daily_production : list Z) (i : nat) (p : Z) (demand : list Z) :
  daily_production !! i = Some p ->
  data daily_period_demand !! i = Some demand ->
  Forall (fun d => (0 <= d)%Z) demand ->
  let out := generate_daily_period_sales daily_period_demand daily_production in
  exists sales,
    data out.1 !! i = Some sales
    /\ take (num_known_periods sales) sales
       = take (num_known_periods sales) demand
    /\ known_demand sales = np.sum (take (num_known_periods sales) demand).
Proof.
  intros Hp Hd Hpos out.
  destruct (simulated_day _ _ _ _ _ Hp Hd) as [Hs _].
  exists (day_sales p demand). split; [done|].
  assert (take (num_known_periods (day_sales p demand)) (day_sales p demand)
          = take (num_known_periods (day_sales p demand)) demand) as Heq.
  { apply list_eq. intros j.
    pose proof (num_known_plus_zero (day_sales p demand)) as Hsum.
    destruct (decide (j < num_known_periods (day_sales p demand))) as [Hj|Hj].
    - rewrite !lookup_take_lt by done.
      apply day_sales_below_uncensored; [done | lia].
    - rewrite !lookup_take_ge by lia. done. }
  split; [done|]. unfold known_demand. by rewrite Heq.
Qed.

Lemma simulated_known_periods_uncensored_witness :
  let out := generate_daily_period_sales
               (Array2d [[3; 4; 5]; [2; 2; 2]]%Z 3) [7; 10]%Z in
  exists sales,
    data out.1 !! 0 = Some sales
    /\ take (num_known_periods sales) sales
       = take (num_known_periods sales) [3; 4; 5]%Z
    /\ known_demand sales
       = np.sum (take (num_known_periods sales) [3; 4; 5]%Z).
Proof.
  intros out.
  apply (simulated_known_periods_uncensored
           (Array2d [[3; 4; 5]; [2; 2; 2]]%Z 3) [7; 10]%Z 0 7%Z [3; 4; 5]%Z).
  - reflexivity.
  - reflexivity.
  - repeat constructor; lia.
Defined.


(** * More on the stockout-day predictor *)

Lemma num_known_periods_lt (sales : list Z) :
  sales <> [] -> num_known_periods sales < length sales.
Proof.
  intros Hne. pose proof (num_known_plus_zero sales).
  pose proof (num_below_total_lt sales Hne). lia.
Qed.

(** X1: on a record of integer counts, the only exception of
    [predict_stockout_day_demand] is the KeyError of the dictionary
    lookup: it is raised exactly when the number of known periods is
    positive and the table has no model under it, and the missing key is
    then between 1 and the number of periods minus one. *)
Theorem day_predictor_raises_only_KeyError `{Regression}
    (sales : list Z) (period_models : gmap nat Model) (e : exn) :
  exact_counts sales ->
  predict_stockout_day_demand sales period_models = Raise e
  <-> exists k, e = KeyError k
        /\ k = num_known_periods sales
        /\ 1 <= k < length sales
        /\ period_models !! k = None.
Proof.
  intros _. rewrite predict_stockout_day_demand_eq. split.
  - case_decide as Hpos; [|done].
    destruct (period_models !! num_known_periods sales) eqn:Hlook; [done|].
    intros [= <-]. exists (num_known_periods sales).
    repeat split; [lia| |done].
    apply num_known_periods_lt. intros ->. vm_compute in Hpos. lia.
  - intros (k & -> & -> & [Hk _] & Hnone).
    rewrite decide_True by lia. by rewrite Hnone.
Qed.

Lemma day_predictor_raises_only_KeyError_witness :
  exists k, KeyError 2 = KeyError k
    /\ k = num_known_periods [1; 2; 3; 0]%Z
    /\ 1 <= k < length [1; 2; 3; 0]%Z
    /\ (∅ : gmap nat (@Model exact_ols)) !! k = None.
Proof.
  apply (proj1 (@day_predictor_raises_only_KeyError exact_ols
                  [1; 2; 3; 0]%Z ∅ (KeyError 2) ltac:(reflexivity))).
  reflexivity.
Defined.

(** X2: a record with no period or a single period has no known period:
    the result is [np.NaN] whatever the model table. *)
Theorem short_record_gives_NaN `{Regression}
    (sales : list Z) (period_models : gmap nat Model) :
  length sales <= 1 ->
  predict_stockout_day_demand sales period_models = Ok NaN.
Proof.
  intros Hlen. apply predict_day_NaN.
  destruct sales as [|x sales]; [reflexivity|].
  pose proof (num_known_periods_lt (x :: sales) ltac:(done)).
  simpl in *. lia.
Qed.

Lemma short_record_gives_NaN_witness :
  @predict_stockout_day_demand exact_ols [9]%Z {[ 1 := (3, 1)%Z ]} = Ok NaN.
Proof.
  apply (@short_record_gives_NaN exact_ols [9]%Z {[ 1 := (3, 1)%Z ]}).
  simpl. lia.
Defined.

Lemma predict_with_trained_table `{Regression}
    (sales : list Z) (complete_days : array2d) :
  length sales <= shape1 complete_days ->
  predict_stockout_day_demand sales (trained_table complete_days)
  = if decide (0 < num_known_periods sales)
    then Ok (Predicted (predict
               (fit_period complete_days (num_known_periods sales))
               (known_demand sales)))
    else Ok NaN.
Proof.
  intros Hlen. rewrite predict_stockout_day_demand_eq.
  case_decide as Hpos; [|done].
  rewrite trained_table_lookup. rewrite decide_True; [done|].
  assert (sales <> []) as Hne by (intros ->; vm_compute in Hpos; lia).
  pose proof (num_known_periods_lt sales Hne). lia.
Qed.

(** X3: with a table returned by [create_models_by_known_periods] on
    complete days of [P] periods, a record of at most [P] integer
    counts never raises, whatever the signs of its entries: the result
    is [np.NaN] or the prediction of the model fitted for its number of
    known periods. *)
Theorem trained_table_never_misses `{Regression}
    (sales : list Z) (complete_days : array2d)
    (period_models : gmap nat Model) :
  exact_counts sales ->
  create_models_by_known_periods complete_days = Ok period_models ->
  length sales <= shape1 complete_days ->
  (forall e, predict_stockout_day_demand sales period_models <> Raise e)
  /\ predict_stockout_day_demand sales period_models
     = if decide (0 < num_known_periods sales)
       then Ok (Predicted (predict
                  (fit_period complete_days (num_known_periods sales))
                  (known_demand sales)))
       else Ok NaN.
Proof.
  intros _ Hok Hlen. rewrite (create_models_Ok _ _ Hok).
  rewrite predict_with_trained_table by done.
  split; [|done]. intros e. by case_decide.
Qed.

Lemma trained_table_never_misses_witness :
  let complete := Array2d (replicate 5 [5; 5; 5; 5]%Z) 4 in
  @predict_stockout_day_demand exact_ols [5; -2; 4]%Z
    (@trained_table exact_ols complete)
  = Ok (@Predicted exact_ols (3000, 500)%Z).
Proof.
  intros complete.
  rewrite (proj2 (@trained_table_never_misses exact_ols [5; -2; 4]%Z complete
                   (@trained_table exact_ols complete)
                   ltac:(reflexivity) ltac:(reflexivity) ltac:(simpl; lia))).
  reflexivity.
Defined.

(** X4: for a record of non-negative integer counts with a known period,
    the known demand is not negative and is strictly below the day's
    recorded total. *)
Theorem known_demand_below_total (sales : list Z) :
  exact_counts sales ->
  Forall (fun x => (0 <= x)%Z) sales ->
  0 < num_known_periods sales ->
  (0 <= known_demand sales < np.sum sales)%Z.
Proof.
  intros _ Hpos Hn.
  assert (sales <> []) as Hne by (intros ->; vm_compute in Hn; lia).
  pose proof (num_known_plus_zero sales) as Hsum.
  pose proof (num_below_total_lt sales Hne) as Hlt.
  unfold known_demand. split.
  - apply sum_nonneg. by apply Forall_take.
  - assert (np.cumsum_from 0 sales !! (num_known_periods sales - 1)
            = Some (0 + np.sum (take (S (num_known_periods sales - 1)) sales))%Z)
      as Hc by (apply cumsum_from_lookup; lia).
    replace (S (num_known_periods sales - 1))
      with (num_known_periods sales) in Hc by lia.
    pose proof (below_is_prefix 0 (np.sum sales) sales _ _ Hpos Hc) as Hbelow.
    unfold num_below_total, np.cumsum in Hsum.
    specialize (Hbelow ltac:(lia)). lia.
Qed.

Lemma known_demand_below_total_witness :
  (0 <= known_demand [5; 5; 0; 0]%Z < np.sum [5; 5; 0; 0]%Z)%Z.
Proof.
  apply (known_demand_below_total [5; 5; 0; 0]%Z).
  - reflexivity.
  - repeat constructor; lia.
  - vm_compute. lia.
Defined.

Section last_sale.
Implicit Types (acc t : Z) (xs l : list Z).

Lemma cumsum_from_app acc l k :
  np.cumsum_from acc (l ++ k)
  = np.cumsum_from acc l ++ np.cumsum_from (acc + np.sum l) k.
Proof.
  revert acc. induction l as [|x l IH]; intros acc; simpl.
  - f_equal. lia.
  - rewrite IH. do 3 f_equal. lia.
Qed.

Lemma sum_replicate_0 (k : nat) : np.sum (replicate k 0%Z) = 0%Z.
Proof. induction k as [|k IH]; simpl; [done | by rewrite IH]. Qed.

Lemma sum_positive xs :
  Forall (fun x => (0 < x)%Z) xs -> (0 <= np.sum xs)%Z.
Proof. induction 1 as [|x xs Hx _ IH]; simpl; lia. Qed.

(** Periods with sales of their own whose running sums stay below [t]
    are all counted. *)
Lemma count_all_before acc t xs :
  Forall (fun x => (0 < x)%Z) xs ->
  (acc + np.sum xs < t)%Z ->
  length (filter (fun p : Z * Z => (p.1 < t)%Z /\ p.2 <> 0%Z)
                 (zip (np.cumsum_from acc xs) xs))
  = length xs.
Proof.
  intros Hpos. revert acc.
  induction Hpos as [|x xs Hx Hrest IH]; intros acc Hlt; simpl in *; [done|].
  pose proof (sum_positive xs Hrest).
  rewrite filter_cons, decide_True by (simpl; lia).
  simpl. rewrite IH by lia. done.
Qed.

(** Once the running sum has reached [t], no later period is counted. *)
Lemma count_none_after acc t l :
  Forall (fun x => (0 <= x)%Z) l ->
  (t <= acc)%Z ->
  filter (fun p : Z * Z => (p.1 < t)%Z /\ p.2 <> 0%Z)
         (zip (np.cumsum_from acc l) l) = [].
Proof.
  intros Hpos. revert acc.
  induction Hpos as [|x l Hx _ IH]; intros acc Hle; simpl; [done|].
  rewrite filter_cons, decide_False by (simpl; lia).
  apply IH. lia.
Qed.

Lemma count_last_sale t xs (y : Z) (k : nat) :
  Forall (fun x => (0 < x)%Z) xs ->
  (0 < y)%Z ->
  t = (np.sum xs + y)%Z ->
  length (filter (fun p : Z * Z => (p.1 < t)%Z /\ p.2 <> 0%Z)
                 (zip (np.cumsum_from 0 (xs ++ y :: replicate k 0%Z))
                      (xs ++ y :: replicate k 0%Z)))
  = length xs.
Proof.
  intros Hpos Hy Ht. rewrite cumsum_from_app.
  rewrite (zip_with_app pair (np.cumsum_from 0 xs) _ xs)
    by apply cumsum_from_length.
  rewrite filter_app, length_app.
  rewrite count_all_before by (done || lia).
  simpl. rewrite filter_cons, decide_False by (simpl; lia).
  rewrite count_none_after; [simpl; lia| |lia].
  apply Forall_replicate. lia.
Qed.

Lemma num_known_periods_last_sale xs (y : Z) (k : nat) :
  Forall (fun x => (0 < x)%Z) xs ->
  (0 < y)%Z ->
  num_known_periods (xs ++ y :: replicate k 0%Z) = length xs.
Proof.
  intros Hpos Hy. rewrite num_known_periods_eq.
  apply count_last_sale; [done | done |].
  rewrite sum_app. simpl. rewrite sum_replicate_0. lia.
Qed.

End last_sale.

(** X5: on a record of integer counts in which every period before the
    last sale has sales of its own and nothing is sold after it, as in
    the docstring's example, the known periods are exactly the periods
    before the last sale: their number selects the model and their sales
    are the known demand; with no period before the last sale the result
    is [np.NaN]. *)
Theorem known_periods_before_last_sale `{Regression}
    (xs : list Z) (y : Z) (k : nat) (period_models : gmap nat Model) :
  exact_counts (xs ++ y :: replicate k 0%Z) ->
  Forall (fun x => (0 < x)%Z) xs ->
  (0 < y)%Z ->
  let sales := xs ++ y :: replicate k 0%Z in
  num_known_periods sales = length xs
  /\ known_demand sales = np.sum xs
  /\ (forall model,
        xs <> [] -> period_models !! length xs = Some model ->
        predict_stockout_day_demand sales period_models
        = Ok (Predicted (predict model (np.sum xs))))
  /\ (xs = [] -> predict_stockout_day_demand sales period_models = Ok NaN).
Proof.
  intros _ Hpos Hy sales.
  pose proof (num_known_periods_last_sale xs y k Hpos Hy) as Hn.
  fold sales in Hn.
  assert (known_demand sales = np.sum xs) as Hkd.
  { unfold known_demand. rewrite Hn. unfold sales.
    by rewrite take_app_length. }
  split; [done|]. split; [done|]. split.
  - intros model Hne Hlook. rewrite <- Hkd.
    apply predict_day_found; rewrite Hn; [|done].
    destruct xs; [done | simpl; lia].
  - intros ->. apply predict_day_NaN. by rewrite Hn.
Qed.

Lemma known_periods_before_last_sale_witness :
  num_known_periods ([23; 45; 23] ++ 2 :: replicate 3 0)%Z = 3
  /\ known_demand ([23; 45; 23] ++ 2 :: replicate 3 0)%Z = 91%Z.
Proof.
  destruct (@known_periods_before_last_sale exact_ols
              [23; 45; 23]%Z 2%Z 3 ∅) as (Hn & Hkd & _).
  - reflexivity.
  - repeat constructor; lia.
  - lia.
  - split; [exact Hn | exact Hkd].
Defined.


(** * More on the batch predictor *)

Lemma mapM_res_Raise {A B : Type} (f : A -> res B)
    (before : list A) (row : A) (after : list A) (e : exn) :
  Forall (fun r => exists y, f r = Ok y) before ->
  f row = Raise e ->
  mapM f (before ++ row :: after) = Raise e.
Proof.
  intros Hbefore Hrow.
  induction Hbefore as [|r before [y Hy] _ IH]; cbn [app mapM].
  - rewrite Hrow. reflexivity.
  - rewrite Hy, IH. reflexivity.
Qed.

Lemma apply_along_axis1_mapM {B : Type} (f : list Z -> res B) (arr : array2d) :
  data arr <> [] -> np.apply_along_axis1 f arr = mapM f (data arr).
Proof. intros Hne. unfold np.apply_along_axis1. by destruct (data arr). Qed.

(** X8: the batch stops at the first day whose prediction raises: the
    exception of that day, for instance the KeyError of a missing model,
    is the result of the whole call and no estimate is returned for any
    day. *)
Theorem batch_aborts_on_first_failure `{Regression}
    (stockout_days : array2d) (period_models : gmap nat Model)
    (before : list (list Z)) (row : list Z) (after : list (list Z))
    (e : exn) :
  data stockout_days = before ++ row :: after ->
  Forall (fun r => exists est,
            predict_stockout_day_demand r period_models = Ok est) before ->
  predict_stockout_day_demand row period_models = Raise e ->
  predict_stockout_daily_demand stockout_days period_models = Raise e.
Proof.
  intros Hdata Hbefore Hrow. unfold predict_stockout_daily_demand.
  rewrite apply_along_axis1_mapM by (rewrite Hdata; by destruct before).
  rewrite Hdata. by apply mapM_res_Raise.
Qed.

Lemma batch_aborts_on_first_failure_witness :
  @predict_stockout_daily_demand exact_ols
    (Array2d [[5; 5; 0; 0]; [1; 2; 3; 0]; [4; 4; 0; 0]]%Z 4)
    {[ 1 := (4, 1)%Z ]}
  = Raise (KeyError 2).
Proof.
  apply (@batch_aborts_on_first_failure exact_ols
           (Array2d [[5; 5; 0; 0]; [1; 2; 3; 0]; [4; 4; 0; 0]]%Z 4)
           {[ 1 := (4, 1)%Z ]}
           [[5; 5; 0; 0]%Z] [1; 2; 3; 0]%Z [[4; 4; 0; 0]%Z]).
  - reflexivity.
  - repeat constructor. eexists. reflexivity.
  - reflexivity.
Defined.

Lemma predict_stockout_daily_demand_rows_witness :
  @predict_stockout_daily_demand exact_ols
    (Array2d [[5; 5; 0; 0]; [0; 0; 7; 0]]%Z 4) {[ 1 := (4, 1)%Z ]}
  = Ok [@Predicted exact_ols (20, 1)%Z; NaN].
Proof.
  apply (@predict_stockout_daily_demand_rows exact_ols
           (Array2d [[5; 5; 0; 0]; [0; 0; 7; 0]]%Z 4) {[ 1 := (4, 1)%Z ]}).
  - discriminate.
  - repeat constructor.
Defined.

(** * The functions together *)

Lemma compress_elem_of {A : Type} (mask : list bool) (xs : list A) (x : A) :
  x ∈ np.compress mask xs -> x ∈ xs.
Proof.
  revert xs. induction mask as [|b mask IH]; intros [|y xs] Hin; simpl in *;
    try by apply elem_of_nil in Hin.
  destruct b.
  - apply elem_of_cons in Hin as [->|Hin]; [left | right; by apply IH].
  - right. by apply IH.
Qed.

Lemma compress_all_positive {A : Type} (u : list Z) (xs : list A) :
  Forall (fun v => (0 < v)%Z) u ->
  length u = length xs ->
  np.compress (np.greater0 u) xs = xs /\ np.compress (np.equal0 u) xs = [].
Proof.
  intros Hpos. revert xs.
  induction Hpos as [|v u Hv _ IH]; intros [|x xs] Hlen; simplify_eq/=; [done|].
  destruct (IH xs Hlen) as [-> ->].
  rewrite bool_decide_eq_true_2 by done.
  rewrite bool_decide_eq_false_2 by lia. done.
Qed.

Lemma mapM_res_total {A B : Type} (f : A -> res B) (l : list A) :
  Forall (fun r => exists y, f r = Ok y) l ->
  exists out, mapM f l = Ok out /\ length out = length l.
Proof.
  induction 1 as [|r l [y Hy] _ (out & Hout & Hlen)]; cbn [mapM].
  - by exists [].
  - exists (y :: out). rewrite Hy, Hout. split; [reflexivity | simpl; lia].
Qed.

(** X9: when every day has unsold units there is no stockout day:
    [complete_days] is the whole input, [stockout_days] has no row, and
    [predict_stockout_daily_demand] on it raises ValueError whatever the
    model table. *)
Theorem history_without_stockout `{Regression}
    (period_sales_daily : array2d) (unsold_daily : list Z)
    (period_models : gmap nat Model) :
  Forall (fun v => (0 < v)%Z) unsold_daily ->
  length unsold_daily = shape0 period_sales_daily ->
  exists complete_days stockout_days,
    split_days_by_stockout period_sales_daily unsold_daily
    = Ok (complete_days, stockout_days)
    /\ complete_days = period_sales_daily
    /\ data stockout_days = []
    /\ shape1 stockout_days = shape1 period_sales_daily
    /\ predict_stockout_daily_demand stockout_days period_models
       = Raise ValueError.
Proof.
  intros Hpos Hlen. rewrite split_days_by_stockout_aligned by done.
  destruct (compress_all_positive unsold_daily (data period_sales_daily))
    as [Hc Hs]; [done | done |].
  rewrite Hc, Hs. eexists _, _. split; [reflexivity|].
  split; [by destruct period_sales_daily|]. done.
Qed.

Lemma history_without_stockout_witness :
  exists complete_days stockout_days,
    split_days_by_stockout (Array2d [[1; 2]; [3; 4]]%Z 2) [5; 1]%Z
    = Ok (complete_days, stockout_days)
    /\ @predict_stockout_daily_demand exact_ols stockout_days
         (trained_table complete_days)
       = Raise ValueError.
Proof.
  destruct (@history_without_stockout exact_ols
              (Array2d [[1; 2]; [3; 4]]%Z 2) [5; 1]%Z
              (@trained_table exact_ols (Array2d [[1; 2]; [3; 4]]%Z 2)))
    as (c & s & Hsplit & Hc & _ & _ & Hbatch).
  - repeat constructor; lia.
  - reflexivity.
  - exists c, s. split; [exact Hsplit|]. rewrite Hc. exact Hbatch.
Defined.

(** X10: on a rectangular history of integer counts with at least one
    complete day, the split keeps the number of periods, the training on
    [complete_days] returns a table, and this table has a model for
    every number of known periods a row of [stockout_days] can have: no
    row raises, and with at least one stockout day the batch returns one
    estimate per stockout day. *)
Theorem pipeline_lookup_safe `{Regression}
    (period_sales_daily : array2d) (unsold_daily : list Z)
    (complete_days stockout_days : array2d) :
  rectangular period_sales_daily ->
  Forall exact_counts (data period_sales_daily) ->
  split_days_by_stockout period_sales_daily unsold_daily
  = Ok (complete_days, stockout_days) ->
  data complete_days <> [] ->
  shape1 complete_days = shape1 period_sales_daily
  /\ shape1 stockout_days = shape1 period_sales_daily
  /\ rectangular complete_days
  /\ rectangular stockout_days
  /\ exists period_models,
       create_models_by_known_periods complete_days = Ok period_models
       /\ (forall row e,
             row ∈ data stockout_days ->
             predict_stockout_day_demand row period_models <> Raise e)
       /\ (data stockout_days <> [] ->
           exists out,
             predict_stockout_daily_demand stockout_days period_models
             = Ok out
             /\ length out = shape0 stockout_days).
Proof.
  intros Hrect _ (-> & -> & _)%split_days_by_stockout_Ok Hcomplete. simpl.
  assert (forall mask,
            Forall (fun row => length row = shape1 period_sales_daily)
                   (np.compress mask (data period_sales_daily))) as Hsub.
  { intros mask. apply Forall_forall. intros row Hin%compress_elem_of.
    revert row Hin. by apply Forall_forall. }
  set (complete := Array2d (np.compress (np.greater0 unsold_daily)
                                        (data period_sales_daily))
                           (shape1 period_sales_daily)) in *.
  assert (forall row,
            row ∈ np.compress (np.equal0 unsold_daily) (data period_sales_daily) ->
            exists est,
              predict_stockout_day_demand row (trained_table complete)
              = Ok est) as Hrow.
  { intros row Hin. rewrite predict_with_trained_table.
    - case_decide; eauto.
    - simpl. pose proof (Hsub (np.equal0 unsold_daily)) as Hall.
      rewrite Forall_forall in Hall. rewrite (Hall row Hin). done. }
  split; [done|]. split; [done|].
  split; [apply Hsub|]. split; [apply Hsub|].
  exists (trained_table complete).
  split; [by apply create_models_returns|]. split.
  - intros row e Hin. destruct (Hrow row Hin) as [est ->]. done.
  - intros Hne. unfold predict_stockout_daily_demand.
    rewrite apply_along_axis1_mapM by done. simpl.
    apply mapM_res_total. apply Forall_forall. intros row Hin.
    by apply Hrow.
Qed.

Lemma pipeline_lookup_safe_witness :
  exists period_models out,
    @create_models_by_known_periods exact_ols
      (Array2d [[1; 2; 3]; [2; 2; 2]]%Z 3) = Ok period_models
    /\ @predict_stockout_daily_demand exact_ols (Array2d [[3; 4; 0]]%Z 3)
         period_models = Ok out
    /\ length out = 1.
Proof.
  destruct (@pipeline_lookup_safe exact_ols
              (Array2d [[1; 2; 3]; [3; 4; 0]; [2; 2; 2]]%Z 3) [4; 0; 1]%Z
              (Array2d [[1; 2; 3]; [2; 2; 2]]%Z 3) (Array2d [[3; 4; 0]]%Z 3))
    as (_ & _ & _ & _ & tbl & Htbl & _ & Hbatch).
  - repeat constructor.
  - repeat constructor.
  - reflexivity.
  - discriminate.
  - destruct (Hbatch ltac:(discriminate)) as (out & Hout & Hlen).
    exists tbl, out. split; [exact Htbl|]. split; [exact Hout | exact Hlen].
Defined.

Lemma compress_all_zero {A : Type} (u : list Z) (xs : list A) :
  Forall (fun v => v = 0%Z) u ->
  length u = length xs ->
  np.compress (np.greater0 u) xs = [] /\ np.compress (np.equal0 u) xs = xs.
Proof.
  intros Hzero. revert xs.
  induction Hzero as [|v u -> _ IH]; intros [|x xs] Hlen; simplify_eq/=; [done|].
  destruct (IH xs Hlen) as [-> ->]. done.
Qed.

(** X20: training needs a complete day.  With two or more periods and
    no complete day [create_models_by_known_periods] raises the
    ValueError of [sm.OLS]; this is what happens after the split of a
    history in which every day is a stockout day.  With fewer than two
    periods the loop has no round and the call returns the empty
    dictionary. *)
Theorem training_needs_a_complete_day `{Regression}
    (period_sales_daily : array2d) (unsold_daily : list Z) :
  Forall (fun v => v = 0%Z) unsold_daily ->
  length unsold_daily = shape0 period_sales_daily ->
  exists complete_days stockout_days,
    split_days_by_stockout period_sales_daily unsold_daily
    = Ok (complete_days, stockout_days)
    /\ data complete_days = []
    /\ stockout_days = period_sales_daily
    /\ (2 <= shape1 period_sales_daily ->
        create_models_by_known_periods complete_days = Raise ValueError)
    /\ (shape1 period_sales_daily <= 1 ->
        create_models_by_known_periods complete_days = Ok ∅).
Proof.
  intros Hzero Hlen. rewrite split_days_by_stockout_aligned by done.
  destruct (compress_all_zero unsold_daily (data period_sales_daily))
    as [Hc Hs]; [done | done |].
  rewrite Hc, Hs. eexists _, _. split; [reflexivity|].
  split; [done|]. split; [by destruct period_sales_daily|]. split.
  - intros HP. by apply create_models_no_rows.
  - intros HP. by apply create_models_no_round.
Qed.

Lemma training_needs_a_complete_day_witness :
  exists complete_days stockout_days,
    split_days_by_stockout (Array2d [[3; 4; 0]; [5; 0; 0]]%Z 3) [0; 0]%Z
    = Ok (complete_days, stockout_days)
    /\ @create_models_by_known_periods exact_ols complete_days
       = Raise ValueError.
Proof.
  destruct (@training_needs_a_complete_day exact_ols
              (Array2d [[3; 4; 0]; [5; 0; 0]]%Z 3) [0; 0]%Z)
    as (c & s & Hsplit & _ & _ & Hraise & _).
  - repeat constructor.
  - reflexivity.
  - exists c, s. split; [exact Hsplit|]. apply Hraise. simpl. lia.
Defined.

Lemma simulated_unsold_nonneg (production : list Z) (rows : list (list Z)) :
  Forall (fun p => (0 <= p)%Z) production ->
  Forall (Forall (fun d => (0 <= d)%Z)) rows ->
  Forall (fun v => (0 <= v)%Z)
         (zip_with (fun p demand => (p - np.sum (day_sales p demand))%Z)
                   production rows).
Proof.
  intros Hprod. revert rows.
  induction Hprod as [|p production Hp _ IH]; intros rows Hrows; [constructor|].
  destruct Hrows as [|demand rows Hd Hrows]; simpl; constructor; [|by apply IH].
  unfold day_sales. rewrite (sales_from_sum p 0 demand Hd).
  pose proof (sum_nonneg demand Hd). lia.
Qed.

(** X18: a simulated history with non-negative productions and demands is
    split without loss: every day is complete or stockout, and every row
    of [complete_days] is the true demand of its day. *)
Theorem simulated_history_splits (daily_period_demand : array2d)
    (daily_production : list Z) :
  length daily_production = shape0 daily_period_demand ->
  Forall (fun p => (0 <= p)%Z) daily_production ->
  Forall (Forall (fun d => (0 <= d)%Z)) (data daily_period_demand) ->
  let out := generate_daily_period_sales daily_period_demand daily_production in
  exists complete_days stockout_days,
    split_days_by_stockout out.1 out.2 = Ok (complete_days, stockout_days)
    /\ shape0 complete_days + shape0 stockout_days
       = shape0 daily_period_demand
    /\ Forall2 (fun row i => data daily_period_demand !! i = Some row)
               (data complete_days) (days_where (np.greater0 out.2)).
Proof.
  intros Hlen Hprod Hdem out. subst out.
  rewrite generate_daily_period_sales_rows. cbn [fst snd].
  set (sales := zip_with day_sales daily_production (data daily_period_demand)).
  set (unsold := zip_with (fun p demand => (p - np.sum (day_sales p demand))%Z)
                          daily_production (data daily_period_demand)).
  unfold shape0 in *.
  assert (length sales = length (data daily_period_demand)) as Hls
    by (unfold sales; rewrite length_zip_with; lia).
  assert (length unsold = length sales) as Hlu
    by (unfold unsold; rewrite length_zip_with; lia).
  rewrite split_days_by_stockout_aligned by (unfold shape0; cbn [data]; done).
  cbn [data shape1]. eexists _, _. split; [reflexivity|].
  cbn [data]. split.
  - rewrite <- Hls. apply interleave_length, compress_interleave.
    + by rewrite greater0_length.
    + by rewrite equal0_length.
    + apply masks_exclusive. by apply simulated_unsold_nonneg.
  - eapply Forall2_impl.
    + apply (compress_days_from 0). rewrite greater0_length. lia.
    + intros row i (j & -> & Hrow & Hmask). simpl.
      apply greater0_lookup in Hmask as (v & Hv & Hvpos).
      unfold sales in Hrow. unfold unsold in Hv.
      apply lookup_zip_with_Some in Hrow as (p & demand & -> & Hp & Hd).
      apply lookup_zip_with_Some in Hv as (p' & demand' & -> & Hp' & Hd').
      simplify_eq. rewrite Hd. f_equal.
      assert (Forall (fun d => (0 <= d)%Z) demand) as Hpos
        by (eapply Forall_lookup_1; [exact Hdem | exact Hd]).
      unfold day_sales in *. rewrite (sales_from_sum p 0 demand Hpos) in Hvpos.
      pose proof (sum_nonneg demand Hpos).
      symmetry. apply sales_from_uncensored; [done | lia].
Qed.

Lemma simulated_history_splits_witness :
  let out := generate_daily_period_sales
               (Array2d [[3; 4; 5]; [2; 2; 2]]%Z 3) [7; 10]%Z in
  exists complete_days stockout_days,
    split_days_by_stockout out.1 out.2 = Ok (complete_days, stockout_days)
    /\ shape0 complete_days + shape0 stockout_days = 2.
Proof.
  intros out.
  destruct (simulated_history_splits
              (Array2d [[3; 4; 5]; [2; 2; 2]]%Z 3) [7; 10]%Z)
    as (c & s & Hsplit & Hcount & _).
  - reflexivity.
  - repeat constructor; lia.
  - repeat constructor; lia.
  - exists c, s. split; [exact Hsplit | exact Hcount].
Defined.

(** X19: a day whose drawn production is negative gets a negative unsold
    value from the simulator, and [split_days_by_stockout] then puts it
    in neither group: the two groups have fewer days than the history. *)
Theorem simulated_negative_production_lost (daily_period_demand : array2d)
    (daily_production : list Z) (i : nat) (p : Z) (demand : list Z) :
  length daily_production = shape0 daily_period_demand ->
  daily_production !! i = Some p ->
  data daily_period_demand !! i = Some demand ->
  Forall (fun d => (0 <= d)%Z) demand ->
  (p < 0)%Z ->
  let out := generate_daily_period_sales daily_period_demand daily_production in
  exists complete_days stockout_days,
    split_days_by_stockout out.1 out.2 = Ok (complete_days, stockout_days)
    /\ shape0 complete_days + shape0 stockout_days
       < shape0 daily_period_demand
    /\ (i ∉ days_where (np.greater0 out.2))
    /\ (i ∉ days_where (np.equal0 out.2)).
Proof.
  intros Hlen Hp Hd Hpos Hneg out.
  destruct (simulated_day _ _ _ _ _ Hp Hd) as [_ Hu]. fold out in Hu.
  assert (out.2 !! i = Some p) as Hu'.
  { rewrite Hu. f_equal. unfold day_sales.
    rewrite (sales_from_sum p 0 demand Hpos).
    pose proof (sum_nonneg demand Hpos). lia. }
  clear Hu. revert Hu'. subst out.
  rewrite generate_daily_period_sales_rows. cbn [fst snd].
  set (sales := zip_with day_sales daily_production (data daily_period_demand)).
  set (unsold := zip_with (fun p demand => (p - np.sum (day_sales p demand))%Z)
                          daily_production (data daily_period_demand)).
  intros Hu. unfold shape0 in *.
  assert (length sales = length (data daily_period_demand)) as Hls
    by (unfold sales; rewrite length_zip_with; lia).
  assert (length unsold = length sales) as Hlu
    by (unfold unsold; rewrite length_zip_with; lia).
  rewrite split_days_by_stockout_aligned by (unfold shape0; cbn [data]; done).
  cbn [data shape1]. eexists _, _. split; [reflexivity|].
  cbn [data]. split; [|split].
  - pose proof (split_count unsold sales Hlu) as Hcount.
    assert (p ∈ filter passes_neither unsold) as Hin.
    { apply list_elem_of_filter. split; [unfold passes_neither; lia|].
      by eapply list_elem_of_lookup_2. }
    destruct (filter passes_neither unsold); [by apply elem_of_nil in Hin|].
    simpl in Hcount. lia.
  - rewrite elem_of_days_where, greater0_lookup.
    intros (v & Hv & Hvpos). simplify_eq. lia.
  - rewrite elem_of_days_where, equal0_lookup. intros Hv. simplify_eq. lia.
Qed.

Lemma simulated_negative_production_lost_witness :
  let out := generate_daily_period_sales
               (Array2d [[3; 4; 5]; [2; 2; 2]]%Z 3) [7; -2]%Z in
  exists complete_days stockout_days,
    split_days_by_stockout out.1 out.2 = Ok (complete_days, stockout_days)
    /\ shape0 complete_days + shape0 stockout_days < 2.
Proof.
  intros out.
  destruct (simulated_negative_production_lost
              (Array2d [[3; 4; 5]; [2; 2; 2]]%Z 3) [7; -2]%Z 1 (-2)%Z [2; 2; 2]%Z)
    as (c & s & Hsplit & Hcount & _).
  - reflexivity.
  - reflexivity.
  - reflexivity.
  - repeat constructor; lia.
  - lia.
  - exists c, s. split; [exact Hsplit | exact Hcount].
Defined.

(** * Periods after the last sale *)

Lemma count_trailing_zeros (t : Z) (l : list Z) (k : nat) :
  (t <= np.sum l)%Z ->
  filter (fun p : Z * Z => (p.1 < t)%Z /\ p.2 <> 0%Z)
         (zip (np.cumsum_from 0 (l ++ replicate k 0%Z)) (l ++ replicate k 0%Z))
  = filter (fun p : Z * Z => (p.1 < t)%Z /\ p.2 <> 0%Z)
           (zip (np.cumsum_from 0 l) l).
Proof.
  intros Ht. rewrite cumsum_from_app.
  rewrite (zip_with_app pair (np.cumsum_from 0 l) _ l)
    by apply cumsum_from_length.
  rewrite filter_app.
  rewrite (count_none_after (0 + np.sum l) t (replicate k 0%Z));
    [by rewrite app_nil_r| |lia].
  apply Forall_replicate. lia.
Qed.

Lemma num_known_periods_trailing_zeros (sales : list Z) (k : nat) :
  num_known_periods (sales ++ replicate k 0%Z) = num_known_periods sales.
Proof.
  rewrite !num_known_periods_eq.
  assert (np.sum (sales ++ replicate k 0%Z) = np.sum sales) as Hsum.
  { rewrite sum_app, (sum_replicate_0 k). lia. }
  rewrite Hsum. unfold np.cumsum.
  rewrite count_trailing_zeros by lia. done.
Qed.

(** X6: zero-sales periods appended after a record of integer counts
    change nothing: the number of known periods, the known demand and
    the result of [predict_stockout_day_demand] are those of the record
    itself. *)
Theorem trailing_zero_periods_ignored `{Regression}
    (sales : list Z) (k : nat) (period_models : gmap nat Model) :
  exact_counts sales ->
  num_known_periods (sales ++ replicate k 0%Z) = num_known_periods sales
  /\ known_demand (sales ++ replicate k 0%Z) = known_demand sales
  /\ predict_stockout_day_demand (sales ++ replicate k 0%Z) period_models
     = predict_stockout_day_demand sales period_models.
Proof.
  intros _.
  pose proof (num_known_periods_trailing_zeros sales k) as Hn.
  assert (known_demand (sales ++ replicate k 0%Z) = known_demand sales) as Hkd.
  { unfold known_demand. rewrite Hn.
    destruct sales as [|x sales]; [by destruct k|].
    pose proof (num_known_periods_lt (x :: sales) ltac:(done)).
    by rewrite take_app_le by lia. }
  split; [done|]. split; [done|].
  rewrite !predict_stockout_day_demand_eq. by rewrite Hn, Hkd.
Qed.

Lemma sales_from_sold_out_shape (p acc : Z) (demand : list Z) :
  Forall (fun d => (0 <= d)%Z) demand ->
  (acc <= p < acc + np.sum demand)%Z ->
  exists j d,
    demand !! j = Some d
    /\ (0 <= p - (acc + np.sum (take j demand)) < d)%Z
    /\ sales_from p acc demand
       = take j demand ++ (p - (acc + np.sum (take j demand)))%Z
           :: replicate (length demand - S j) 0%Z.
Proof.
  intros Hpos. revert acc.
  induction Hpos as [|x demand Hx Hrest IH]; intros acc Hacc; simpl in *; [lia|].
  destruct (decide (acc + x <= p)%Z) as [Hle|Hgt].
  - destruct (IH (acc + x)%Z ltac:(lia)) as (j & d & Hd & Hr & Heq).
    exists (S j), d. simpl. split; [done|].
    replace (acc + (x + np.sum (take j demand)))%Z
      with (acc + x + np.sum (take j demand))%Z by lia.
    split; [done|]. rewrite Heq. f_equal.
    unfold period_sale. rewrite bool_decide_eq_false_2 by lia. done.
  - exists 0, x. simpl. split; [done|]. split; [lia|].
    rewrite sales_from_sold_out by (done || lia).
    rewrite Nat.sub_0_r. f_equal.
    unfold period_sale. repeat case_bool_decide; lia.
Qed.

Lemma trailing_zero_periods_ignored_witness :
  num_known_periods ([3; 4; 2] ++ replicate 3 0)%Z = num_known_periods [3; 4; 2]%Z
  /\ known_demand ([3; 4; 2] ++ replicate 3 0)%Z = known_demand [3; 4; 2]%Z.
Proof.
  destruct (@trailing_zero_periods_ignored exact_ols [3; 4; 2]%Z 3 ∅)
    as (Hn & Hkd & _).
  - reflexivity.
  - split; [exact Hn | exact Hkd].
Defined.

(** X16: on a simulated day whose non-negative demand exceeds a non-negative
    production, the sales row is the demand of the first periods, then
    what was left of the production, then zeros: once sold out, the day
    sells nothing more. *)
Theorem simulated_stockout_persists (daily_period_demand : array2d)
    (daily_production : list Z) (i : nat) (p : Z) (demand : list Z) :
  daily_production !! i = Some p ->
  data daily_period_demand !! i = Some demand ->
  Forall (fun d => (0 <= d)%Z) demand ->
  (0 <= p < np.sum demand)%Z ->
  let out := generate_daily_period_sales daily_period_demand daily_production in
  exists sales j d,
    data out.1 !! i = Some sales
    /\ demand !! j = Some d
    /\ (0 <= p - np.sum (take j demand) < d)%Z
    /\ sales = take j demand ++ (p - np.sum (take j demand))%Z
                 :: replicate (length demand - S j) 0%Z.
Proof.
  intros Hp Hd Hpos Hsold out.
  destruct (simulated_day _ _ _ _ _ Hp Hd) as [Hs _].
  destruct (sales_from_sold_out_shape p 0 demand Hpos ltac:(lia))
    as (j & d & Hj & Hr & Heq).
  exists (day_sales p demand), j, d. split; [done|]. split; [done|].
  replace (0 + np.sum (take j demand))%Z
    with (np.sum (take j demand)) in * by lia.
  split; [done|]. exact Heq.
Qed.

Lemma simulated_stockout_persists_witness :
  let out := generate_daily_period_sales
               (Array2d [[3; 4; 5; 6]; [2; 2; 2; 2]]%Z 4) [5; 10]%Z in
  exists sales j d,
    data out.1 !! 0 = Some sales
    /\ [3; 4; 5; 6]%Z !! j = Some d
    /\ (0 <= 5 - np.sum (take j [3; 4; 5; 6]) < d)%Z
    /\ sales = take j [3; 4; 5; 6]%Z
                 ++ (5 - np.sum (take j [3; 4; 5; 6]))%Z
                 :: replicate (4 - S j) 0%Z.
Proof.
  intros out.
  apply (simulated_stockout_persists
           (Array2d [[3; 4; 5; 6]; [2; 2; 2; 2]]%Z 4) [5; 10]%Z 0 5%Z
           [3; 4; 5; 6]%Z).
  - reflexivity.
  - reflexivity.
  - repeat constructor; lia.
  - simpl. lia.
Defined.
